(** * d2remoteclient: the remote client connection of OpenDiablo2

    A shallow embedding of
    [d2networking/d2client/d2remoteclient/remote_client_connection.go].

    The file has three layers.

    - The collaborators of the package (the packet constructors of
      [d2netpacket], the tag constants of [d2netpackettype], the player state
      loader, and the Go libraries [encoding/json], [compress/gzip] and [net])
      are gathered in the class [Collaborators]; every definition and theorem
      about the connection is parametric in them.
    - The methods of [RemoteClientConnection] are written in a small monad
      [Go] that threads the connection and a trace of its interactions with
      the outside, and that can panic (a nil dereference has no result).
    - Module [Lab] gives one executable instance of the collaborators, on
      which the model can be run. *)

From Stdlib Require Import Arith NArith List String Ascii Bool Lia.
From Stdlib Require Import Strings.Byte.
Import ListNotations.

Set Implicit Arguments.

Local Open Scope string_scope.
Local Open Scope list_scope.

(** ** Go values shared by all layers *)

(** A Go [error] value that the connection can return.  [EmptyPacketBody] is
    the error built with [errors.New] in [SendPacketToServer]; every error
    made by a collaborator is [External], with its message. *)
Inductive error : Type :=
| EmptyPacketBody (packetType : N)
| External (msg : string).

(** [d2netpacket.NetPacket]: a type tag and a payload ([interface{}]). *)
Record NetPacket (Payload : Type) : Type := mkNetPacket {
  PacketType : N;
  PacketData : Payload
}.

(** The packet structures into which [serverListener] unmarshals. *)
Inductive Shape : Type :=
| GenerateMapPacket
| MovePlayerPacket
| UpdateServerInfoPacket
| AddPlayerPacket
| PlayerDisconnectRequestPacket.

(** Conversion of an integer to a byte keeps the low eight bits. *)
Definition low_byte (n : N) : byte :=
  match Byte.of_N (n mod 256) with
  | Some b => b
  | None => x00
  end.

(** [byte(packet.PacketType)]. *)
Definition byte_of_NetPacketType (t : N) : byte := low_byte t.

(** [d2netpackettype.NetPacketType(packetTypeId)]. *)
Definition NetPacketType_of_byte (b : byte) : N := Byte.to_N b.

(** [strings.Contains(s, substr)]. *)
Fixpoint strings_Contains (s substr : string) : bool :=
  String.prefix substr s ||
  match s with
  | EmptyString => false
  | String _ s' => strings_Contains s' substr
  end.

(** ** The collaborators *)

(** A call that returns [(T, error)] in Go is a sum here: [inl msg] is a
    non-nil error and [inr v] a result with a nil error. *)
Class Collaborators : Type := {
  (** opaque data *)
  Payload : Type;
  PlayerState : Type;
  UDPAddr : Type;
  UDPConn : Type;
  GzipReader : Type;
  (** [d2netpackettype]: the constants named in the dispatch switch *)
  GenerateMap : N;
  MovePlayer : N;
  UpdateServerInfo : N;
  AddPlayer : N;
  Ping : N;
  PlayerDisconnectionNotification : N;
  (** [d2netpacket] *)
  CreatePlayerConnectionRequestPacket : string -> PlayerState -> NetPacket Payload;
  CreatePlayerDisconnectRequestPacket : string -> NetPacket Payload;
  CreatePongPacket : string -> NetPacket Payload;
  PlayerDisconnectRequestPacket_Id : Payload -> string;
  (** [d2player] *)
  LoadPlayerState : string -> PlayerState;
  (** [encoding/json] *)
  json_Marshal : Payload -> string + list byte;
  json_Unmarshal : Shape -> list byte -> string + Payload;
  (** [compress/gzip], writing: the answer of [writer.Write(data)], the answer
      of the [writer.Close()] that follows, and the bytes the two have put in
      the underlying buffer *)
  gzip_Writer_Write : list byte -> nat * option string;
  gzip_Writer_Close : list byte -> option string;
  gzip_Writer_output : list byte -> list byte;
  (** [compress/gzip], reading: [gzip.NewReader] answers an error when the
      header is not accepted; [io.Copy] drains a reader and answers what it
      copied with the error that stopped it, if any *)
  gzip_NewReader : list byte -> string + GzipReader;
  io_Copy : GzipReader -> list byte * option string;
  (** [net]; the result of a write may depend on when it happens, so
      [UDPConn_Write] takes the number of earlier interactions *)
  net_ResolveUDPAddr : string -> string + UDPAddr;
  net_DialUDP : UDPAddr -> string + UDPConn;
  UDPConn_Write : UDPConn -> nat -> list byte -> option string;
  UDPConn_RemoteAddr : UDPConn -> string
}.

(** Go refuses to compile a switch with two equal constant cases, so the six
    constants of the dispatch switch are pairwise different. *)
Definition tags_distinct {C : Collaborators} : Prop :=
  NoDup [GenerateMap; MovePlayer; UpdateServerInfo; AddPlayer; Ping;
         PlayerDisconnectionNotification].

(** The contract of [io.Writer]: a write that returns no error has consumed
    all of its argument. *)
Definition io_Writer_contract {C : Collaborators} : Prop :=
  forall data : list byte,
    snd (gzip_Writer_Write data) = None ->
    fst (gzip_Writer_Write data) = List.length data.

Declare Scope go_scope.
Delimit Scope go_scope with go.

(** ** The connection *)

Section Connection.

Context {C : Collaborators}.

(** [d2networking.ClientListener]: the one method [OnPacketReceived]. *)
Definition ClientListener : Type := NetPacket Payload -> option string.

(** A nil interface or pointer is [None]. *)
Record RemoteClientConnection : Type := mkConnection {
  clientListener : option ClientListener;
  uniqueId : string;
  udpConnection : option UDPConn;
  active : bool
}.

Inductive LogEntry : Type :=
| LogSocketError (msg : string)
| LogCopyError (packetType : N) (msg : string)
| LogEmptyPacket (packetType : N)
| LogUnmarshalError (shape : Shape) (msg : string)
| LogProcessingError (packetType : N) (err : error)
| LogPingError (err : error)
| LogDisconnect (id : string)
| LogUnknownType (packetType : N)
| LogConnected (remote : string)
| LogConnectionRequestError.

(** What the connection does to the outside, in order.  [Submitted] records
    an entry into [SendPacketToServer]; the other events are calls the code
    makes: printing, name resolution, dialing, starting the goroutine,
    writing a datagram and calling the listener. *)
Inductive Event : Type :=
| Log (entry : LogEntry)
| Resolve (address : string)
| Dial (address : UDPAddr)
| GoServerListener
| Submitted (packet : NetPacket Payload)
| Wrote (frame : list byte) (result : option string)
| Delivered (packet : NetPacket Payload) (result : option string).

Record Machine : Type := mkMachine {
  conn : RemoteClientConnection;
  trace : list Event
}.

(** A call either returns, or panics; both leave a machine behind. *)
Inductive outcome (A : Type) : Type :=
| Returned (a : A) (m : Machine)
| Panicked (m : Machine).

Arguments Returned {A} a m.
Arguments Panicked {A} m.

Definition Go (A : Type) : Type := Machine -> outcome A.

Definition ret {A : Type} (a : A) : Go A := fun m => Returned a m.

Definition bind {A B : Type} (c : Go A) (k : A -> Go B) : Go B :=
  fun m =>
    match c m with
    | Returned a m' => k a m'
    | Panicked m' => Panicked m'
    end.

Definition panic {A : Type} : Go A := fun m => Panicked m.

Definition emit (e : Event) : Go unit :=
  fun m => Returned tt (mkMachine (conn m) (trace m ++ [e])).

Definition receiver : Go RemoteClientConnection :=
  fun m => Returned (conn m) m.

Definition assign (f : RemoteClientConnection -> RemoteClientConnection) : Go unit :=
  fun m => Returned tt (mkMachine (f (conn m)) (trace m)).

Definition elapsed : Go nat :=
  fun m => Returned (List.length (trace m)) m.

Notation "x <- c ;; k" := (bind c (fun x => k))
  (at level 61, c at next level, right associativity) : go_scope.
Notation "c ;; k" := (bind c (fun _ => k))
  (at level 61, right associativity) : go_scope.

Local Open Scope go_scope.

(** [GetUniqueId] returns [RemoteClientConnection.uniqueId]. *)
Definition GetUniqueId (l : RemoteClientConnection) : string := uniqueId l.

(** [SendPacketToClient] passes a packet to the game client.  The method of
    a nil interface value cannot be called: the call panics. *)
Definition SendPacketToClient (packet : NetPacket Payload) : Go (option error) :=
  l <- receiver ;;
  match clientListener l with
  | None => panic
  | Some listener =>
      let result := listener packet in
      emit (Delivered packet result) ;;
      ret (option_map External result)
  end.

(** [Create]: the identifier comes from [uuid.NewV4().String()], here the
    argument; the other fields have their zero values. *)
Definition Create (fresh : string) : RemoteClientConnection :=
  mkConnection None fresh None false.

(** [SetClientListener]. *)
Definition SetClientListener (listener : option ClientListener) : Go unit :=
  assign (fun l => mkConnection listener (uniqueId l) (udpConnection l) (active l)).

(** The bytes [SendPacketToServer] puts in [buff] before it writes them to
    the socket: the type tag, then what the gzip writer produced from the
    JSON encoding of the payload. *)
Definition encode (packet : NetPacket Payload) : error + list byte :=
  match json_Marshal (PacketData packet) with
  | inl msg => inl (External msg)
  | inr data =>
      let buff := [byte_of_NetPacketType (PacketType packet)] in
      match gzip_Writer_Write data with
      | (_, Some msg) => inl (External msg)
      | (written, None) =>
          if Nat.eqb written 0
          then inl (EmptyPacketBody (PacketType packet))
          else
            match gzip_Writer_Close data with
            | Some msg => inl (External msg)
            | None => inr (buff ++ gzip_Writer_output data)
            end
      end
  end.

(** [l.udpConnection.Write(frame)].  [Write] is a method of the struct
    embedded in [net.UDPConn]; selecting it through a nil pointer
    dereferences the pointer, so on a connection that was never dialed the
    call panics. *)
Definition udpConnection_Write (frame : list byte) : Go (option error) :=
  l <- receiver ;;
  match udpConnection l with
  | None => panic
  | Some c =>
      now <- elapsed ;;
      let result := UDPConn_Write c now frame in
      emit (Wrote frame result) ;;
      ret (option_map External result)
  end.

(** [SendPacketToServer] compresses the JSON encoding of a packet and sends
    it to the server. *)
Definition SendPacketToServer (packet : NetPacket Payload) : Go (option error) :=
  emit (Submitted packet) ;;
  match encode packet with
  | inl err => ret (Some err)
  | inr frame => udpConnection_Write frame
  end.

(** [Close] informs the server that this client has disconnected and sets
    [active] to false. *)
Definition Close : Go (option error) :=
  assign (fun l => mkConnection (clientListener l) (uniqueId l) (udpConnection l) false) ;;
  l <- receiver ;;
  err <- SendPacketToServer (CreatePlayerDisconnectRequestPacket (GetUniqueId l)) ;;
  match err with
  | Some e => ret (Some e)
  | None => ret None
  end.

(** The first three lines of [Open]: the address handed to the resolver. *)
Definition withDefaultPort (connectionString : string) : string :=
  if negb (strings_Contains connectionString ":")
  then connectionString ++ ":6669"
  else connectionString.

(** [Open] starts [serverListener] in a goroutine and sends a
    [PlayerConnectionRequestPacket] to the server. *)
Definition Open (connectionString saveFilePath : string) : Go (option error) :=
  let connectionString := withDefaultPort connectionString in
  emit (Resolve connectionString) ;;
  match net_ResolveUDPAddr connectionString with
  | inl msg => ret (Some (External msg))
  | inr udpAddress =>
      emit (Dial udpAddress) ;;
      match net_DialUDP udpAddress with
      | inl msg =>
          assign (fun l => mkConnection (clientListener l) (uniqueId l) None (active l)) ;;
          ret (Some (External msg))
      | inr c =>
          assign (fun l => mkConnection (clientListener l) (uniqueId l) (Some c) (active l)) ;;
          assign (fun l => mkConnection (clientListener l) (uniqueId l) (udpConnection l) true) ;;
          emit GoServerListener ;;
          emit (Log (LogConnected (UDPConn_RemoteAddr c))) ;;
          let gameState := LoadPlayerState saveFilePath in
          l <- receiver ;;
          err <- SendPacketToServer
                   (CreatePlayerConnectionRequestPacket (GetUniqueId l) gameState) ;;
          match err with
          | Some e =>
              emit (Log LogConnectionRequestError) ;;
              ret (Some e)
          | None => ret None
          end
      end
  end.

(** ** Reading a trace *)

(** The packets that entered [SendPacketToServer], in order. *)
Fixpoint submissions (events : list Event) : list (NetPacket Payload) :=
  match events with
  | [] => []
  | Submitted packet :: rest => packet :: submissions rest
  | _ :: rest => submissions rest
  end.

(** The datagrams handed to the socket, in order. *)
Fixpoint datagrams (events : list Event) : list (list byte) :=
  match events with
  | [] => []
  | Wrote frame _ :: rest => frame :: datagrams rest
  | _ :: rest => datagrams rest
  end.

(** The packets handed to the listener, in order. *)
Fixpoint deliveries (events : list Event) : list (NetPacket Payload) :=
  match events with
  | [] => []
  | Delivered packet _ :: rest => packet :: deliveries rest
  | _ :: rest => deliveries rest
  end.

(** The addresses handed to the resolver, in order. *)
Fixpoint resolutions (events : list Event) : list string :=
  match events with
  | [] => []
  | Resolve address :: rest => address :: resolutions rest
  | _ :: rest => resolutions rest
  end.

(** The goroutines started. *)
Fixpoint goroutines (events : list Event) : nat :=
  match events with
  | [] => 0
  | GoServerListener :: rest => S (goroutines rest)
  | _ :: rest => goroutines rest
  end.


(** The events one call of [SendPacketToServer] adds to the trace. *)
Definition sendEvents (packet : NetPacket Payload) (m : Machine) : list Event :=
  Submitted packet ::
  match encode packet, udpConnection (conn m) with
  | inr frame, Some c =>
      [Wrote frame (UDPConn_Write c (S (List.length (trace m))) frame)]
  | _, _ => []
  end.

(** What one call of [SendPacketToServer] returns, when it returns. *)
Definition sendResult (packet : NetPacket Payload) (m : Machine) : option error :=
  match encode packet, udpConnection (conn m) with
  | inl err, _ => Some err
  | inr _, None => None
  | inr frame, Some c =>
      option_map External (UDPConn_Write c (S (List.length (trace m))) frame)
  end.

(** One call of [SendPacketToServer] panics: there is a frame to write and
    no socket. *)
Definition sendPanics (packet : NetPacket Payload) (m : Machine) : bool :=
  match encode packet, udpConnection (conn m) with
  | inr _, None => true
  | _, _ => false
  end.

(** The machine a call leaves behind, however it ends. *)
Definition machineAfter {A : Type} (o : outcome A) : Machine :=
  match o with
  | Returned _ m => m
  | Panicked m => m
  end.

(** ** The receive loop *)

(** What one call of [ReadFromUDP] answered: a datagram, or an error. *)
Inductive ReadResult : Type :=
| ReadOk (datagram : list byte)
| ReadErr (msg : string).

(** [ReadFromUDP(buffer)] copies the datagram to the front of the buffer, as
    much of it as fits, and answers the number of bytes copied; the rest of
    the buffer keeps what it held. *)
Definition ReadFromUDP (buffer datagram : list byte) : nat * list byte :=
  let n := Nat.min (List.length datagram) (List.length buffer) in
  (n, firstn n datagram ++ skipn n buffer).

(** The body shared by the cases [GenerateMap], [MovePlayer],
    [UpdateServerInfo] and [AddPlayer] of the switch: unmarshal into the
    structure of the case, then hand the packet to the client. *)
Definition forward (shape : Shape) (packetType : N) (stringData : list byte) : Go unit :=
  match json_Unmarshal shape stringData with
  | inl msg => emit (Log (LogUnmarshalError shape msg))
  | inr packet =>
      err <- SendPacketToClient (mkNetPacket packetType packet) ;;
      match err with
      | Some e => emit (Log (LogProcessingError packetType e))
      | None => ret tt
      end
  end.

(** The switch on [packetType]; cases are tried in order. *)
Definition dispatch (packetType : N) (stringData : list byte) : Go unit :=
  if N.eqb packetType GenerateMap then
    forward GenerateMapPacket packetType stringData
  else if N.eqb packetType MovePlayer then
    forward MovePlayerPacket packetType stringData
  else if N.eqb packetType UpdateServerInfo then
    forward UpdateServerInfoPacket packetType stringData
  else if N.eqb packetType AddPlayer then
    forward AddPlayerPacket packetType stringData
  else if N.eqb packetType Ping then
    l <- receiver ;;
    err <- SendPacketToServer (CreatePongPacket (uniqueId l)) ;;
    match err with
    | Some e => emit (Log (LogPingError e))
    | None => ret tt
    end
  else if N.eqb packetType PlayerDisconnectionNotification then
    match json_Unmarshal PlayerDisconnectRequestPacket stringData with
    | inl msg => emit (Log (LogUnmarshalError PlayerDisconnectRequestPacket msg))
    | inr packet => emit (Log (LogDisconnect (PlayerDisconnectRequestPacket_Id packet)))
    end
  else
    emit (Log (LogUnknownType packetType)).

(** What the loop does once [gzip.NewReader] has answered.  The error of
    [gzip.NewReader] is overwritten unread; when there is one the reader is
    nil and [io.Copy] calls [Read] on it, which dereferences it.  An error of
    [io.Copy] is logged and the body goes on; only an empty copy is skipped. *)
Definition afterNewReader (packetType : N) (opened : string + GzipReader) : Go unit :=
  match opened with
  | inl _ => panic
  | inr reader =>
      let '(sb, err) := io_Copy reader in
      let written := List.length sb in
      match err with
      | Some msg => emit (Log (LogCopyError packetType msg))
      | None => ret tt
      end ;;
      if Nat.eqb written 0
      then emit (Log (LogEmptyPacket packetType))
      else dispatch packetType sb
  end.

(** The loop body from [bytes.NewBuffer(buffer)] on: the whole of [buffer] is
    wrapped, its first byte is the tag and the gzip reader gets the rest. *)
Definition handleDatagram (buffer : list byte) : Go unit :=
  let packetTypeId := hd x00 buffer in
  let buff := tl buffer in
  let packetType := NetPacketType_of_byte packetTypeId in
  afterNewReader packetType (gzip_NewReader buff).

(** One turn of the loop; it answers the buffer for the next turn. *)
Definition iteration (r : ReadResult) (buffer : list byte) : Go (list byte) :=
  match r with
  | ReadErr msg =>
      emit (Log (LogSocketError msg)) ;;
      ret buffer
  | ReadOk datagram =>
      let '(n, buffer') := ReadFromUDP buffer datagram in
      if Nat.leb n 0
      then ret buffer'
      else handleDatagram buffer' ;; ret buffer'
  end.

(** How a run of the loop over finitely many reads ends: the flag was found
    false, or the loop is in [ReadFromUDP] waiting for the next datagram. *)
Inductive LoopStatus : Type :=
| Exited
| AwaitingDatagram.

Fixpoint serverListener_from (reads : list ReadResult) (buffer : list byte)
    : Go LoopStatus :=
  fun m =>
    if negb (active (conn m)) then Returned Exited m
    else
      match reads with
      | [] => Returned AwaitingDatagram m
      | r :: rest =>
          bind (iteration r buffer)
               (fun buffer' => serverListener_from rest buffer') m
      end.

(** [serverListener]: the buffer is made once, 4096 zero bytes. *)
Definition serverListener (reads : list ReadResult) : Go LoopStatus :=
  serverListener_from reads (repeat x00 4096).

(** ** Vocabulary for the statements *)

(** The machine of [Open] at the point where it sends the connection
    request: socket stored, flag set, goroutine started, address logged. *)
Definition opened (m : Machine) (address : string) (a : UDPAddr) (c : UDPConn)
    : Machine :=
  mkMachine
    (mkConnection (clientListener (conn m)) (uniqueId (conn m)) (Some c) true)
    (trace m ++ [Resolve address; Dial a; GoServerListener;
                 Log (LogConnected (UDPConn_RemoteAddr c))]).

(** The four tags whose packets are handed to the client, each with the
    structure its case unmarshals into. *)
Definition registered (t : N) (s : Shape) : Prop :=
  (t = GenerateMap /\ s = GenerateMapPacket) \/
  (t = MovePlayer /\ s = MovePlayerPacket) \/
  (t = UpdateServerInfo /\ s = UpdateServerInfoPacket) \/
  (t = AddPlayer /\ s = AddPlayerPacket).

(** The tags whose case unmarshals the body: the four above, and the
    disconnection notice, whose packet is only printed. *)
Definition unmarshalled (t : N) (s : Shape) : Prop :=
  registered t s \/
  (t = PlayerDisconnectionNotification /\ s = PlayerDisconnectRequestPacket).

(** The decoded bytes of a datagram cannot be used: there are none, or they
    do not unmarshal into the structure of the tag, or no case has the tag. *)
Definition undecodable (t : N) (sb : list byte) : Prop :=
  sb = [] \/
  (exists s msg, unmarshalled t s /\ json_Unmarshal s sb = inl msg) \/
  ~ In t [GenerateMap; MovePlayer; UpdateServerInfo; AddPlayer; Ping;
          PlayerDisconnectionNotification].

(** The gzip reader accepts [bytes] and [io.Copy] gets [data] out of them,
    with or without an error at the end. *)
Definition gzip_recovers (bytes data : list byte) : Prop :=
  exists reader err,
    gzip_NewReader bytes = inr reader /\ io_Copy reader = (data, err).

(** What the loop prints about the answer of [io.Copy]. *)
Definition copyEntries (t : N) (err : option string) : list LogEntry :=
  match err with
  | Some msg => [LogCopyError t msg]
  | None => []
  end.

(** A payload that [json.Unmarshal] reads back from its own encoding. *)
Definition json_restores (s : Shape) (payload : Payload) : Prop :=
  exists data,
    json_Marshal payload = inr data /\ json_Unmarshal s data = inr payload.

(** The same machine with the flag set to [b]. *)
Definition withActive (b : bool) (m : Machine) : Machine :=
  mkMachine
    (mkConnection (clientListener (conn m)) (uniqueId (conn m))
                  (udpConnection (conn m)) b)
    (trace m).

(** A read that gives the loop nothing to decode: an error, or a datagram
    of no bytes. *)
Definition idle (r : ReadResult) : bool :=
  match r with
  | ReadErr _ => true
  | ReadOk [] => true
  | ReadOk (_ :: _) => false
  end.

(** The lines printed for the read errors among [reads], in order. *)
Fixpoint socketErrors (reads : list ReadResult) : list LogEntry :=
  match reads with
  | [] => []
  | ReadErr msg :: rest => LogSocketError msg :: socketErrors rest
  | ReadOk _ :: rest => socketErrors rest
  end.

(** What the receive loop of the connection with identifier [id] may do:
    print; submit the pong of [id] and write its frame; hand the listener a
    packet with one of the four forwarded tags.  It resolves and dials
    nothing and starts no goroutine. *)
Definition loopEvent (id : string) (e : Event) : Prop :=
  match e with
  | Log _ => True
  | Submitted packet => packet = CreatePongPacket id
  | Wrote frame _ => encode (CreatePongPacket id) = inr frame
  | Delivered packet _ =>
      In (PacketType packet) [GenerateMap; MovePlayer; UpdateServerInfo; AddPlayer]
  | Resolve _ => False
  | Dial _ => False
  | GoServerListener => False
  end.

(** A computation that, on the connection with identifier [id], leaves the
    connection as it was and adds only events the loop may cause, however it
    ends. *)
Definition tidy {A : Type} (id : string) (c : Go A) : Prop :=
  forall m : Machine,
    uniqueId (conn m) = id ->
    conn (machineAfter (c m)) = conn m /\
    exists events : list Event,
      trace (machineAfter (c m)) = trace m ++ events /\
      Forall (loopEvent id) events.

(** How a run of the loop ended, when it did not panic. *)
Definition statusOf (o : outcome LoopStatus) : option LoopStatus :=
  match o with
  | Returned status _ => Some status
  | Panicked _ => None
  end.

End Connection.

Arguments Returned {_ A} a m.
Arguments Panicked {_ A} m.

(** ** An executable instance of the collaborators *)

(** Payloads are JSON texts and are their own serialization.  The gzip
    writer emits a valid gzip member made of one stored DEFLATE block; the
    reader understands such members and, as [compress/gzip] does, looks for a
    further member after each one.  Three hosts are known to the resolver. *)
Module Lab.

Definition header : list byte :=
  [x1f; x8b; x08; x00; x00; x00; x00; x00; x02; xff].

Definition crc32_shift (c : N) : N :=
  if N.odd c then N.lxor (N.shiftr c 1) 3988292384%N else N.shiftr c 1.

Definition crc32_update (c : N) (b : byte) : N :=
  let c0 := N.lxor c (Byte.to_N b) in
  crc32_shift (crc32_shift (crc32_shift (crc32_shift
    (crc32_shift (crc32_shift (crc32_shift (crc32_shift c0))))))).

Definition crc32 (data : list byte) : N :=
  N.lxor (fold_left crc32_update data 4294967295%N) 4294967295%N.

Definition le_bytes (width : nat) (n : N) : list byte :=
  map (fun i => low_byte (N.shiftr n (8 * N.of_nat i)%N)) (seq 0 width).

Definition le_value (bs : list byte) : N :=
  fold_right (fun b acc => Byte.to_N b + 256 * acc)%N 0%N bs.

Definition trailer (data : list byte) : list byte :=
  le_bytes 4 (crc32 data) ++ le_bytes 4 (N.of_nat (List.length data)).

Definition stored (data : list byte) : list byte :=
  let len := N.of_nat (List.length data) in
  x01 :: le_bytes 2 len ++ le_bytes 2 (65535 - len)%N ++ data.

Definition member (data : list byte) : list byte :=
  header ++ stored data ++ trailer data.

Definition list_byte_eqb (a b : list byte) : bool :=
  if list_eq_dec Byte.byte_eq_dec a b then true else false.

(** The ten header bytes: magic, method, no optional field. *)
Definition readHeader (input : list byte) : string + list byte :=
  if Nat.ltb (List.length input) 10 then inl "unexpected EOF"
  else if list_byte_eqb (firstn 4 input) (firstn 4 header)
       then inr (skipn 10 input)
       else inl "gzip: invalid header".

(** Drains the members that start at [body], which follows an accepted
    header. *)
Fixpoint readMembers (fuel : nat) (body : list byte) : list byte * option string :=
  match fuel with
  | O => ([], Some "unexpected EOF")
  | S fuel' =>
      match body with
      | x01 :: l0 :: l1 :: n0 :: n1 :: rest =>
          let len := le_value [l0; l1] in
          if negb (N.eqb (le_value [n0; n1]) (65535 - len)%N)
          then ([], Some "flate: corrupt input")
          else
            let data := firstn (N.to_nat len) rest in
            let after := skipn (N.to_nat len) rest in
            if Nat.ltb (List.length rest) (N.to_nat len + 8)
            then (data, Some "unexpected EOF")
            else if negb (list_byte_eqb (firstn 8 after) (trailer data))
            then (data, Some "gzip: invalid checksum")
            else
              match skipn 8 after with
              | [] => (data, None)
              | next =>
                  match readHeader next with
                  | inl msg => (data, Some msg)
                  | inr body' =>
                      let '(more, err) := readMembers fuel' body' in
                      (data ++ more, err)
                  end
              end
      | [] => ([], Some "unexpected EOF")
      | _ => ([], Some "flate: corrupt input")
      end
  end.

Definition quote : string := String (ascii_of_nat 34) EmptyString.

(** [{"Id":"<id>"}] *)
Definition withId (id : string) : string :=
  "{" ++ quote ++ "Id" ++ quote ++ ":" ++ quote ++ id ++ quote ++ "}".

(** A text is read as one JSON object: it starts with an opening brace and
    ends with a closing one. *)
Definition unmarshal (shape : Shape) (text : list byte) : string + string :=
  match text with
  | x7b :: _ =>
      match last text x00 with
      | x7d => inr (string_of_list_byte text)
      | _ => inl "invalid character after top-level value"
      end
  | _ => inl "invalid character looking for beginning of value"
  end.

Definition resolve (address : string) : string + string :=
  if String.eqb address "localhost:6669" then inr address
  else if String.eqb address "refusing:6669" then inr address
  else if String.eqb address "unroutable:6669" then inr address
  else inl "no such host".

Definition dial (address : string) : string + string :=
  if String.eqb address "unroutable:6669"
  then inl "connect: network is unreachable"
  else inr address.

Definition write (remote : string) (now : nat) (frame : list byte) : option string :=
  if String.eqb remote "refusing:6669"
  then Some "write: connection refused"
  else None.

Definition collaborators : Collaborators := {|
  Payload := string;
  PlayerState := string;
  UDPAddr := string;
  UDPConn := string;
  GzipReader := list byte;
  UpdateServerInfo := 0%N;
  GenerateMap := 1%N;
  AddPlayer := 2%N;
  MovePlayer := 3%N;
  PlayerDisconnectionNotification := 5%N;
  Ping := 6%N;
  CreatePlayerConnectionRequestPacket :=
    fun id state => mkNetPacket 4%N (withId (id ++ state));
  CreatePlayerDisconnectRequestPacket := fun id => mkNetPacket 5%N (withId id);
  CreatePongPacket := fun id => mkNetPacket 7%N (withId id);
  PlayerDisconnectRequestPacket_Id := fun text => text;
  LoadPlayerState := fun path => path;
  json_Marshal := fun text => inr (list_byte_of_string text);
  json_Unmarshal := unmarshal;
  gzip_Writer_Write := fun data => (List.length data, None);
  gzip_Writer_Close :=
    fun data => if N.ltb 65535 (N.of_nat (List.length data))
                then Some "body too long for one stored block"
                else None;
  gzip_Writer_output := member;
  gzip_NewReader := readHeader;
  io_Copy := fun body => readMembers (S (List.length body)) body;
  net_ResolveUDPAddr := resolve;
  net_DialUDP := dial;
  UDPConn_Write := write;
  UDPConn_RemoteAddr := fun remote => remote
|}.

#[local] Existing Instance collaborators.

(** *** Sample runs *)

(** A listener that accepts every packet. *)
Definition accept : ClientListener := fun _ => None.

(** An open connection with a listener, and the same without one. *)
Definition client : Machine :=
  mkMachine (mkConnection (Some accept) "abc" (Some "localhost:6669") true) [].

Definition deaf : Machine :=
  mkMachine (mkConnection None "abc" (Some "localhost:6669") true) [].

(** A connection as [Create] leaves it. *)
Definition created : Machine := mkMachine (Create "abc") [].

(** The buffer at the start of [serverListener]. *)
Definition zeros : list byte := repeat x00 4096.

Definition frameOf (packet : NetPacket Payload) : list byte :=
  match encode packet with
  | inr frame => frame
  | inl _ => []
  end.

Definition braces : list byte := list_byte_of_string "{}".

(** A ping as the server frames it. *)
Definition pingFrame : list byte := x06 :: member braces.

(** The same with a trailer that does not match the body. *)
Definition corruptPing : list byte :=
  x06 :: header ++ stored braces ++ repeat x00 8.

(** A frame with tag 250, which no case of the switch has. *)
Definition strangeFrame : list byte := xfa :: member braces.

(** A generate-map packet. *)
Definition mapPacket : NetPacket Payload := mkNetPacket 1%N (withId "m").


(** What the loop gets from the gzip reader for a buffer. *)
Definition readerOf (buffer : list byte) : list byte :=
  match gzip_NewReader (tl buffer) with
  | inr reader => reader
  | inl _ => []
  end.

(** A listener that refuses every packet. *)
Definition refuse : ClientListener := fun _ => Some "busy".

(** An open connection whose listener refuses, and one whose server refuses
    every write. *)
Definition grumpy : Machine :=
  mkMachine (mkConnection (Some refuse) "abc" (Some "localhost:6669") true) [].

Definition unheard : Machine :=
  mkMachine (mkConnection (Some accept) "abc" (Some "refusing:6669") true) [].

(** A datagram that is not gzip after its tag. *)
Definition garbage : list byte := x06 :: list_byte_of_string "certainly not gzip".

(** A disconnection notice as the server frames it. *)
Definition noticeFrame : list byte :=
  x05 :: member (list_byte_of_string (withId "xyz")).

(** The same collaborators, except that the empty text cannot be
    marshalled; and a connection as [Create] leaves it, for them. *)
Definition picky : Collaborators := {|
  Payload := string;
  PlayerState := string;
  UDPAddr := string;
  UDPConn := string;
  GzipReader := list byte;
  UpdateServerInfo := 0%N;
  GenerateMap := 1%N;
  AddPlayer := 2%N;
  MovePlayer := 3%N;
  PlayerDisconnectionNotification := 5%N;
  Ping := 6%N;
  CreatePlayerConnectionRequestPacket :=
    fun id state => mkNetPacket 4%N (withId (id ++ state));
  CreatePlayerDisconnectRequestPacket := fun id => mkNetPacket 5%N (withId id);
  CreatePongPacket := fun id => mkNetPacket 7%N (withId id);
  PlayerDisconnectRequestPacket_Id := fun text => text;
  LoadPlayerState := fun path => path;
  json_Marshal :=
    fun text => match text with
                | EmptyString => inl "unexpected end of JSON input"
                | _ => inr (list_byte_of_string text)
                end;
  json_Unmarshal := unmarshal;
  gzip_Writer_Write := fun data => (List.length data, None);
  gzip_Writer_Close := fun _ => None;
  gzip_Writer_output := member;
  gzip_NewReader := readHeader;
  io_Copy := fun body => readMembers (S (List.length body)) body;
  net_ResolveUDPAddr := resolve;
  net_DialUDP := dial;
  UDPConn_Write := write;
  UDPConn_RemoteAddr := fun remote => remote
|}.

Definition pickyCreated : @Machine picky :=
  @mkMachine picky (@Create picky "abc") [].

(** A ping that carries a second gzip member, 34 bytes from its start. *)
Definition longPing : list byte :=
  pingFrame ++ repeat x00 8 ++ member (list_byte_of_string "junk").

End Lab.

(** ** Readings of the specification that are compared with the code *)

(** An address names a port when it has the form [host:port] of Go's [net]
    package, where a host that itself contains a colon (an IPv6 literal) is
    written in square brackets. *)
Definition colons (s : string) : nat :=
  List.length (filter (Ascii.eqb ":"%char) (list_ascii_of_string s)).

Definition specifiesPort (s : string) : bool :=
  match s with
  | String "["%char rest => strings_Contains rest "]:"
  | _ => Nat.eqb (colons s) 1
  end.

(** "The address resolved is the input with :6669 appended when the input
    specifies no port, and the unmodified input otherwise." *)
Definition port_appended_when_unspecified {C : Collaborators} : Prop :=
  forall (s path : string) (m : Machine),
  exists (result : option error) (m' : Machine) (events : list Event),
    Open s path m = Returned result m' /\
    trace m' = trace m ++ events /\
    resolutions events
    = [if specifiesPort s then s else (s ++ ":6669")%string].


(** "Every datagram whose body fails to decompress is logged and dropped, and
    the loop continues": a datagram for which [gzip.NewReader] or [io.Copy]
    answers an error leaves nothing but log lines in the trace. *)
Definition corrupt_frames_are_dropped {C : Collaborators} : Prop :=
  forall (m : Machine) (buffer d : list byte),
    active (conn m) = true ->
    0 < fst (ReadFromUDP buffer d) ->
    (exists msg, gzip_NewReader (tl (snd (ReadFromUDP buffer d))) = inl msg) \/
    (exists reader sb msg,
        gzip_NewReader (tl (snd (ReadFromUDP buffer d))) = inr reader /\
        io_Copy reader = (sb, Some msg)) ->
    exists logs : list LogEntry,
      iteration (ReadOk d) buffer m
      = Returned (snd (ReadFromUDP buffer d))
                 (mkMachine (conn m) (trace m ++ map Log logs)).

(** ** Properties of the connection *)

Unset Implicit Arguments.

Section Properties.

Context {C : Collaborators}.

Lemma submissions_app (a b : list Event) :
  submissions (a ++ b) = submissions a ++ submissions b.
Proof.
  induction a as [|e a IH]; simpl; [reflexivity|].
  destruct e; simpl; rewrite IH; reflexivity.
Qed.

Lemma datagrams_app (a b : list Event) :
  datagrams (a ++ b) = datagrams a ++ datagrams b.
Proof.
  induction a as [|e a IH]; simpl; [reflexivity|].
  destruct e; simpl; rewrite IH; reflexivity.
Qed.

Lemma deliveries_app (a b : list Event) :
  deliveries (a ++ b) = deliveries a ++ deliveries b.
Proof.
  induction a as [|e a IH]; simpl; [reflexivity|].
  destruct e; simpl; rewrite IH; reflexivity.
Qed.

(** [SendPacketToServer] leaves the connection as it was and extends the
    trace; it returns unless there is a frame to write and no socket. *)
Lemma SendPacketToServer_ends (packet : NetPacket Payload) (m : Machine) :
  SendPacketToServer packet m
  = let m' := mkMachine (conn m) (trace m ++ sendEvents packet m) in
    if sendPanics packet m then Panicked m'
    else Returned (sendResult packet m) m'.
Proof.
  unfold SendPacketToServer, sendResult, sendEvents, sendPanics,
    udpConnection_Write, bind, emit, receiver, elapsed, ret, panic.
  simpl.
  destruct (encode packet) as [err|frame]; simpl; [reflexivity|].
  destruct (udpConnection (conn m)) as [c|]; simpl; [|reflexivity].
  rewrite length_app, Nat.add_comm. simpl.
  rewrite <- app_assoc. reflexivity.
Qed.

Lemma sendPanics_socket (packet : NetPacket Payload) (m : Machine) (c : UDPConn) :
  udpConnection (conn m) = Some c -> sendPanics packet m = false.
Proof.
  intros U. unfold sendPanics. rewrite U. destruct (encode packet); reflexivity.
Qed.

Lemma SendPacketToServer_runs
    (packet : NetPacket Payload) (m : Machine) (c : UDPConn) :
  udpConnection (conn m) = Some c ->
  SendPacketToServer packet m
  = Returned (sendResult packet m)
             (mkMachine (conn m) (trace m ++ sendEvents packet m)).
Proof.
  intros U. rewrite SendPacketToServer_ends. cbv zeta.
  rewrite (sendPanics_socket packet m c U). reflexivity.
Qed.

Lemma submissions_sendEvents (packet : NetPacket Payload) (m : Machine) :
  submissions (sendEvents packet m) = [packet].
Proof.
  unfold sendEvents.
  destruct (encode packet); destruct (udpConnection (conn m)); reflexivity.
Qed.

Lemma deliveries_sendEvents (packet : NetPacket Payload) (m : Machine) :
  deliveries (sendEvents packet m) = [].
Proof.
  unfold sendEvents.
  destruct (encode packet); destruct (udpConnection (conn m)); reflexivity.
Qed.


(** A frame is a tag followed by the writer's output for the marshalled
    payload, and the writer took at least one byte. *)
Lemma encode_frame (packet : NetPacket Payload) (frame : list byte) :
  encode packet = inr frame ->
  exists data written,
    json_Marshal (PacketData packet) = inr data /\
    gzip_Writer_Write data = (written, None) /\ written <> 0 /\
    frame = byte_of_NetPacketType (PacketType packet) :: gzip_Writer_output data.
Proof.
  unfold encode.
  destruct (json_Marshal (PacketData packet)) as [msg|data]; [discriminate|].
  destruct (gzip_Writer_Write data) as [written [msg|]] eqn:W; [discriminate|].
  destruct (Nat.eqb written 0) eqn:Z; [discriminate|].
  destruct (gzip_Writer_Close data); [discriminate|].
  intros E. injection E as <-. apply Nat.eqb_neq in Z.
  exists data, written. repeat split; assumption.
Qed.


(** C4.  However a call of [Close] ends, the machine it leaves has the
    flag false and the identifier unchanged, and the call has entered
    [SendPacketToServer] exactly once, with the disconnect request made from
    this connection's identifier.  On a connection that has a socket the
    call returns, with or without an error from the send. *)
Theorem Close_sets_inactive_and_submits_one_disconnect (m : Machine) :
  active (conn (machineAfter (Close m))) = false /\
  uniqueId (conn (machineAfter (Close m))) = uniqueId (conn m) /\
  (exists events : list Event,
      trace (machineAfter (Close m)) = trace m ++ events /\
      submissions events
      = [CreatePlayerDisconnectRequestPacket (uniqueId (conn m))]) /\
  (forall c : UDPConn,
      udpConnection (conn m) = Some c ->
      exists err : option error,
        Close m = Returned err (machineAfter (Close m))).
Proof.
  assert (E : Close m
              = let m1 := mkMachine
                            (mkConnection (clientListener (conn m))
                               (uniqueId (conn m)) (udpConnection (conn m)) false)
                            (trace m) in
                let request :=
                  CreatePlayerDisconnectRequestPacket (uniqueId (conn m)) in
                let m' := mkMachine (conn m1) (trace m ++ sendEvents request m1) in
                if sendPanics request m1 then Panicked m'
                else Returned (sendResult request m1) m').
  { unfold Close, bind at 1 2 3, assign, receiver, GetUniqueId.
    cbn -[SendPacketToServer bind sendEvents sendPanics sendResult].
    rewrite SendPacketToServer_ends. cbv zeta.
    cbn -[sendEvents sendPanics sendResult].
    destruct (sendPanics _ _); [reflexivity|].
    destruct (sendResult _ _); reflexivity. }
  rewrite E. cbv zeta.
  split; [destruct (sendPanics _ _); reflexivity|].
  split; [destruct (sendPanics _ _); reflexivity|].
  split.
  - eexists. split; [destruct (sendPanics _ _); reflexivity|].
    apply submissions_sendEvents.
  - intros c U.
    rewrite (sendPanics_socket _ _ c) by exact U.
    eexists. reflexivity.
Qed.

(** [Open] once the address is resolved and the socket dialed. *)
Lemma Open_connected (s path : string) (m : Machine) (a : UDPAddr) (c : UDPConn) :
  net_ResolveUDPAddr (withDefaultPort s) = inr a ->
  net_DialUDP a = inr c ->
  let request :=
    CreatePlayerConnectionRequestPacket (uniqueId (conn m)) (LoadPlayerState path) in
  let start := opened m (withDefaultPort s) a c in
  Open s path m
  = Returned (sendResult request start)
      (mkMachine (conn start)
         (trace start ++ sendEvents request start ++
          match sendResult request start with
          | Some _ => [Log LogConnectionRequestError]
          | None => []
          end)).
Proof.
  intros R D request start.
  transitivity
    (bind (SendPacketToServer request)
          (fun err => match err with
                      | Some e =>
                          bind (emit (Log LogConnectionRequestError))
                               (fun _ => ret (Some e))
                      | None => ret None
                      end) start).
  { unfold Open, bind at 1 2 3 4 5 6 7, emit, assign, receiver, ret, GetUniqueId.
    cbn -[SendPacketToServer bind]. rewrite R. cbn -[SendPacketToServer bind].
    rewrite D. cbn -[SendPacketToServer bind].
    unfold start, opened. repeat rewrite <- app_assoc. reflexivity. }
  unfold bind at 1. rewrite (SendPacketToServer_runs request start c eq_refl).
  unfold bind, emit, ret.
  destruct (sendResult request start); unfold start, opened, sendEvents;
    cbn; repeat rewrite <- app_assoc; cbn; rewrite ?app_nil_r; reflexivity.
Qed.

Lemma goroutines_app (a b : list Event) :
  goroutines (a ++ b) = goroutines a + goroutines b.
Proof.
  induction a as [|e a IH]; simpl; [reflexivity|].
  destruct e; simpl; rewrite IH; reflexivity.
Qed.

Lemma goroutines_sendEvents (packet : NetPacket Payload) (m : Machine) :
  goroutines (sendEvents packet m) = 0.
Proof.
  unfold sendEvents.
  destruct (encode packet); destruct (udpConnection (conn m)); reflexivity.
Qed.

(** C5.  When the address resolves and the socket is dialed but the send of
    the connection request returns an error, [Open] returns that error; the
    flag is true on return, the goroutine of [serverListener] has been
    started (once), and the loop finds its condition true: with nothing to
    read it waits in [ReadFromUDP], it has not exited. *)
Theorem Open_request_failure_leaves_connection_running
    (s path : string) (m : Machine) (a : UDPAddr) (c : UDPConn) (e : error) :
  net_ResolveUDPAddr (withDefaultPort s) = inr a ->
  net_DialUDP a = inr c ->
  (exists m2,
      SendPacketToServer
        (CreatePlayerConnectionRequestPacket (uniqueId (conn m)) (LoadPlayerState path))
        (opened m (withDefaultPort s) a c)
      = Returned (Some e) m2) ->
  exists (m' : Machine) (events : list Event),
    Open s path m = Returned (Some e) m' /\
    active (conn m') = true /\
    udpConnection (conn m') = Some c /\
    trace m' = trace m ++ events /\
    goroutines events = 1 /\
    forall buffer, serverListener_from [] buffer m' = Returned AwaitingDatagram m'.
Proof.
  intros R D [m2 S].
  rewrite (SendPacketToServer_runs _ (opened m (withDefaultPort s) a c) c eq_refl)
    in S.
  injection S as S _.
  rewrite (Open_connected s path m _ _ R D). cbv zeta. rewrite S.
  eexists. eexists. split; [reflexivity|]. cbn -[sendEvents].
  split; [reflexivity|]. split; [reflexivity|]. split.
  - rewrite <- app_assoc. reflexivity.
  - split; [|reflexivity].
    rewrite !goroutines_app, goroutines_sendEvents. reflexivity.
Qed.

(** C6.  When resolving the address fails, or dialing the resolved address
    fails, [Open] returns that error; an inactive connection is still
    inactive, no goroutine has been started, and nothing was submitted or
    written. *)
Theorem Open_failure_leaves_connection_inactive
    (s path : string) (m : Machine) (msg : string) :
  net_ResolveUDPAddr (withDefaultPort s) = inl msg \/
  (exists a, net_ResolveUDPAddr (withDefaultPort s) = inr a /\
             net_DialUDP a = inl msg) ->
  active (conn m) = false ->
  exists (m' : Machine) (events : list Event),
    Open s path m = Returned (Some (External msg)) m' /\
    active (conn m') = false /\
    trace m' = trace m ++ events /\
    goroutines events = 0 /\
    submissions events = [] /\
    datagrams events = [].
Proof.
  intros [R | [a [R D]]] Off;
    unfold Open, bind, emit, assign, receiver, ret; simpl; rewrite R; simpl.
  - eexists. exists [Resolve (withDefaultPort s)].
    split; [reflexivity|]. simpl. auto.
  - rewrite D. simpl.
    eexists. exists [Resolve (withDefaultPort s); Dial a].
    split; [reflexivity|]. simpl. rewrite <- app_assoc. auto.
Qed.

Lemma strings_Contains_colon (s : string) :
  strings_Contains s ":" = true <-> In ":"%char (list_ascii_of_string s).
Proof.
  induction s as [|a s IH].
  - simpl. split; [discriminate|tauto].
  - cbn [strings_Contains String.prefix list_ascii_of_string In].
    destruct (ascii_dec ":" a) as [<-|N].
    + destruct s; simpl; tauto.
    + cbn [orb]. rewrite IH. split; [tauto|].
      intros [E|I]; [congruence|assumption].
Qed.

Lemma resolutions_app (a b : list Event) :
  resolutions (a ++ b) = resolutions a ++ resolutions b.
Proof.
  induction a as [|e a IH]; simpl; [reflexivity|].
  destruct e; simpl; rewrite IH; reflexivity.
Qed.

Lemma resolutions_sendEvents (packet : NetPacket Payload) (m : Machine) :
  resolutions (sendEvents packet m) = [].
Proof.
  unfold sendEvents.
  destruct (encode packet); destruct (udpConnection (conn m)); reflexivity.
Qed.

(** C7, as amended.  [Open] always returns and resolves one address: the
    connection string with [":6669"] appended when the string contains no
    colon, and the connection string itself when it contains one. *)
Theorem Open_resolves_with_default_port (s path : string) (m : Machine) :
  exists (result : option error) (m' : Machine) (events : list Event),
    Open s path m = Returned result m' /\
    trace m' = trace m ++ events /\
    resolutions events = [withDefaultPort s] /\
    (In ":"%char (list_ascii_of_string s) -> withDefaultPort s = s) /\
    (~ In ":"%char (list_ascii_of_string s) ->
     withDefaultPort s = (s ++ ":6669")%string).
Proof.
  assert (P : (In ":"%char (list_ascii_of_string s) -> withDefaultPort s = s) /\
              (~ In ":"%char (list_ascii_of_string s) ->
               withDefaultPort s = (s ++ ":6669")%string)).
  { unfold withDefaultPort. rewrite <- strings_Contains_colon.
    destruct (strings_Contains s ":"); simpl; split; congruence. }
  destruct (net_ResolveUDPAddr (withDefaultPort s)) as [msg|a] eqn:R.
  - unfold Open, bind, emit, ret. simpl. rewrite R. simpl.
    eexists. eexists. exists [Resolve (withDefaultPort s)].
    repeat split; try reflexivity; apply P.
  - destruct (net_DialUDP a) as [msg|c] eqn:D.
    + unfold Open, bind, emit, assign, ret. simpl. rewrite R. simpl. rewrite D. simpl.
      eexists. eexists. exists [Resolve (withDefaultPort s); Dial a].
      split; [reflexivity|]. simpl. rewrite <- app_assoc.
      repeat split; try reflexivity; apply P.
    + rewrite (Open_connected s path m _ _ R D). cbv zeta.
      eexists. eexists. eexists. split; [reflexivity|]. cbn -[sendEvents].
      split; [rewrite <- app_assoc; reflexivity|].
      split; [|exact P].
      rewrite !resolutions_app, resolutions_sendEvents.
      destruct (sendResult _ _); reflexivity.
Qed.

(** *** The dispatch switch *)

Lemma tags_apart :
  tags_distinct ->
  GenerateMap <> MovePlayer /\ GenerateMap <> UpdateServerInfo /\
  GenerateMap <> AddPlayer /\ GenerateMap <> Ping /\
  GenerateMap <> PlayerDisconnectionNotification /\
  MovePlayer <> UpdateServerInfo /\ MovePlayer <> AddPlayer /\
  MovePlayer <> Ping /\ MovePlayer <> PlayerDisconnectionNotification /\
  UpdateServerInfo <> AddPlayer /\ UpdateServerInfo <> Ping /\
  UpdateServerInfo <> PlayerDisconnectionNotification /\
  AddPlayer <> Ping /\ AddPlayer <> PlayerDisconnectionNotification /\
  Ping <> PlayerDisconnectionNotification.
Proof.
  unfold tags_distinct. intros D.
  repeat match goal with
         | H : NoDup (_ :: _) |- _ => inversion H; clear H; subst
         end.
  simpl in *. intuition.
Qed.

Ltac split_tags D :=
  let A := fresh "A" in
  pose proof (tags_apart D) as A;
  repeat match type of A with
         | _ /\ _ => let B := fresh "A" in destruct A as [B A]
         end.

Ltac run_switch :=
  unfold dispatch;
  repeat match goal with
         | |- context [N.eqb ?a ?a] => rewrite (N.eqb_refl a)
         | |- context [N.eqb ?a ?b] =>
             destruct (N.eqb_spec a b); [congruence|]
         end.

Lemma dispatch_registered (t : N) (s : Shape) (sb : list byte) :
  tags_distinct -> registered t s -> dispatch t sb = forward s t sb.
Proof.
  intros D R. split_tags D.
  destruct R as [[-> ->]|[[-> ->]|[[-> ->]|[-> ->]]]]; run_switch; reflexivity.
Qed.

Lemma dispatch_Ping (sb : list byte) (m : Machine) (c : UDPConn) :
  tags_distinct ->
  udpConnection (conn m) = Some c ->
  dispatch Ping sb m
  = let pong := CreatePongPacket (uniqueId (conn m)) in
    Returned tt
      (mkMachine (conn m)
         (trace m ++ sendEvents pong m ++
          match sendResult pong m with
          | Some e => [Log (LogPingError e)]
          | None => []
          end)).
Proof.
  intros D U. split_tags D. run_switch.
  unfold bind at 1 2, receiver. rewrite (SendPacketToServer_runs _ _ c U).
  destruct (sendResult _ m); unfold emit, ret; cbn -[sendEvents].
  - rewrite <- app_assoc. reflexivity.
  - rewrite app_nil_r. reflexivity.
Qed.

Lemma dispatch_disconnection (sb : list byte) (m : Machine) :
  tags_distinct ->
  dispatch PlayerDisconnectionNotification sb m
  = Returned tt
      (mkMachine (conn m)
         (trace m ++
          [Log match json_Unmarshal PlayerDisconnectRequestPacket sb with
               | inl msg => LogUnmarshalError PlayerDisconnectRequestPacket msg
               | inr packet => LogDisconnect (PlayerDisconnectRequestPacket_Id packet)
               end])).
Proof.
  intros D. split_tags D. run_switch.
  destruct (json_Unmarshal PlayerDisconnectRequestPacket sb); reflexivity.
Qed.

Lemma dispatch_unknown (t : N) (sb : list byte) (m : Machine) :
  ~ In t [GenerateMap; MovePlayer; UpdateServerInfo; AddPlayer; Ping;
          PlayerDisconnectionNotification] ->
  dispatch t sb m
  = Returned tt (mkMachine (conn m) (trace m ++ [Log (LogUnknownType t)])).
Proof.
  simpl. intros U. unfold dispatch.
  repeat match goal with
         | |- context [N.eqb ?a ?b] =>
             destruct (N.eqb_spec a b); [exfalso; apply U; auto 10|]
         end.
  reflexivity.
Qed.

Lemma forward_unmarshal_error
    (s : Shape) (t : N) (sb : list byte) (msg : string) (m : Machine) :
  json_Unmarshal s sb = inl msg ->
  forward s t sb m
  = Returned tt (mkMachine (conn m) (trace m ++ [Log (LogUnmarshalError s msg)])).
Proof.
  intros U. unfold forward. rewrite U. reflexivity.
Qed.

Lemma forward_delivers
    (s : Shape) (t : N) (sb : list byte) (payload : Payload)
    (listener : ClientListener) (m : Machine) :
  json_Unmarshal s sb = inr payload ->
  clientListener (conn m) = Some listener ->
  forward s t sb m
  = let packet := mkNetPacket t payload in
    Returned tt
      (mkMachine (conn m)
         (trace m ++ Delivered packet (listener packet) ::
          match listener packet with
          | Some msg => [Log (LogProcessingError t (External msg))]
          | None => []
          end)).
Proof.
  intros U L. unfold forward, SendPacketToClient, bind, receiver, emit, ret.
  rewrite U, L. cbn.
  destruct (listener (mkNetPacket t payload)); cbn.
  - rewrite <- app_assoc. reflexivity.
  - reflexivity.
Qed.

Lemma forward_nil_listener
    (s : Shape) (t : N) (sb : list byte) (payload : Payload) (m : Machine) :
  json_Unmarshal s sb = inr payload ->
  clientListener (conn m) = None ->
  forward s t sb m = Panicked m.
Proof.
  intros U L. unfold forward, SendPacketToClient, bind, receiver, panic.
  rewrite U, L. reflexivity.
Qed.

(** *** One turn of the loop *)

Lemma iteration_arrived (d buffer : list byte) (m : Machine) :
  0 < fst (ReadFromUDP buffer d) ->
  iteration (ReadOk d) buffer m
  = bind (handleDatagram (snd (ReadFromUDP buffer d)))
         (fun _ => ret (snd (ReadFromUDP buffer d))) m.
Proof.
  unfold iteration. destruct (ReadFromUDP buffer d) as [n b]. simpl.
  destruct n; [lia|]. reflexivity.
Qed.

Lemma handleDatagram_copied
    (b : list byte) (reader : GzipReader) (sb : list byte)
    (err : option string) (m : Machine) :
  gzip_NewReader (tl b) = inr reader ->
  io_Copy reader = (sb, err) ->
  let t := NetPacketType_of_byte (hd x00 b) in
  let m1 := mkMachine (conn m) (trace m ++ map Log (copyEntries t err)) in
  handleDatagram b m
  = match sb with
    | [] => Returned tt (mkMachine (conn m1) (trace m1 ++ [Log (LogEmptyPacket t)]))
    | _ :: _ => dispatch t sb m1
    end.
Proof.
  intros O K t m1. unfold handleDatagram, afterNewReader. rewrite O, K.
  fold t. unfold bind at 1.
  assert (E : match err with
              | Some msg => emit (Log (LogCopyError t msg))
              | None => ret tt
              end m = Returned tt m1).
  { unfold m1, copyEntries. destruct err; cbn; [reflexivity|].
    rewrite app_nil_r. destruct m; reflexivity. }
  rewrite E. destruct sb; reflexivity.
Qed.

Lemma loop_step
    (d buffer buffer' : list byte) (rest : list ReadResult) (m m' : Machine) :
  active (conn m) = true ->
  iteration (ReadOk d) buffer m = Returned buffer' m' ->
  serverListener_from (ReadOk d :: rest) buffer m
  = serverListener_from rest buffer' m'.
Proof.
  intros A I. cbn [serverListener_from]. rewrite A. cbn [negb].
  unfold bind. rewrite I. reflexivity.
Qed.

(** A datagram whose gzip header is not accepted: the error of
    [gzip.NewReader] is never looked at, and the turn panics in [io.Copy]
    before anything is printed. *)
Lemma rejected_header_panics
    (m : Machine) (buffer d : list byte) (msg : string) :
  0 < fst (ReadFromUDP buffer d) ->
  gzip_NewReader (tl (snd (ReadFromUDP buffer d))) = inl msg ->
  iteration (ReadOk d) buffer m = Panicked m.
Proof.
  intros N O. rewrite (iteration_arrived _ _ _ N).
  unfold bind, handleDatagram, afterNewReader. rewrite O. reflexivity.
Qed.


(** *** The claims about the receive loop *)

(** C1, as amended.  Take a datagram of an active connection whose gzip
    header is accepted.  When nothing was decompressed from it, or the
    decompressed bytes do not unmarshal into the structure of its tag, or no
    case has its tag, the turn only prints (the error of [io.Copy], if any,
    among the lines), hands nothing to the client or the socket, and the loop
    goes on with the next read.  An error of [io.Copy] alone does not skip
    the datagram: what was decompressed before the error is dispatched. *)
Theorem undecodable_datagram_is_logged_and_skipped
    (m : Machine) (buffer d : list byte) (rest : list ReadResult)
    (reader : GzipReader) (sb : list byte) (err : option string) :
  tags_distinct ->
  active (conn m) = true ->
  0 < fst (ReadFromUDP buffer d) ->
  let buffer' := snd (ReadFromUDP buffer d) in
  let t := NetPacketType_of_byte (hd x00 buffer') in
  gzip_NewReader (tl buffer') = inr reader ->
  io_Copy reader = (sb, err) ->
  (undecodable t sb ->
   exists logs : list LogEntry,
     logs <> [] /\
     (forall msg, err = Some msg -> In (LogCopyError t msg) logs) /\
     iteration (ReadOk d) buffer m
     = Returned buffer' (mkMachine (conn m) (trace m ++ map Log logs)) /\
     serverListener_from (ReadOk d :: rest) buffer m
     = serverListener_from rest buffer'
         (mkMachine (conn m) (trace m ++ map Log logs)))
  /\ (sb <> [] ->
      handleDatagram buffer' m
      = dispatch t sb
          (mkMachine (conn m) (trace m ++ map Log (copyEntries t err)))).
Proof.
  intros D A N buffer' t O K.
  pose proof (handleDatagram_copied buffer' _ _ _ m O K) as H. cbv zeta in H. fold t in H.
  split.
  - intros U.
    assert (G : exists logs : list LogEntry,
               logs <> [] /\
               handleDatagram buffer' m
               = Returned tt
                   (mkMachine (conn m)
                      (trace m ++ map Log (copyEntries t err ++ logs)))).
    { rewrite H. destruct sb as [|b0 sb'].
      - exists [LogEmptyPacket t]. split; [discriminate|].
        cbn [conn trace]. rewrite map_app, app_assoc. reflexivity.
      - destruct U as [E|[[s [msg [[R|[Et Es]] J]]]|U]].
        + discriminate.
        + exists [LogUnmarshalError s msg]. split; [discriminate|].
          rewrite (dispatch_registered _ _ _ D R), (forward_unmarshal_error _ _ _ _ _ J).
          cbn [conn trace]. rewrite map_app, app_assoc. reflexivity.
        + exists [LogUnmarshalError s msg]. split; [discriminate|].
          rewrite Et, (dispatch_disconnection _ _ D). subst s. rewrite J.
          cbn [conn trace]. rewrite map_app, app_assoc. reflexivity.
        + exists [LogUnknownType t]. split; [discriminate|].
          rewrite (dispatch_unknown _ _ _ U).
          cbn [conn trace]. rewrite map_app, app_assoc. reflexivity. }
    destruct G as [logs [NE G]].
    assert (I : iteration (ReadOk d) buffer m
                = Returned buffer'
                    (mkMachine (conn m)
                       (trace m ++ map Log (copyEntries t err ++ logs)))).
    { rewrite (iteration_arrived _ _ _ N). fold buffer'.
      unfold bind. rewrite G. reflexivity. }
    exists (copyEntries t err ++ logs). repeat split.
    + intros E. apply app_eq_nil in E. tauto.
    + intros msg ->. apply in_or_app. left. simpl. auto.
    + exact I.
    + apply loop_step; assumption.
  - intros NE. rewrite H. destruct sb; [congruence|reflexivity].
Qed.

(** C2.  Let [t] be a tag whose case unmarshals the body, with its
    structure [s], and let the payload be one that [json.Unmarshal] reads
    back from its own encoding.  If encoding [(t, payload)] gives a frame,
    then decoding that frame (followed by whatever else the buffer holds,
    provided the gzip reader recovers the serialization from it) restores
    [(t, payload)]: the first byte gives back [t], the bytes after it are the
    gzip writer's output, and the packet handed on is [(t, payload)] itself.
    For the four forwarded tags it is handed to the listener, once; for the
    disconnection notice its identifier is printed. *)
Theorem decoding_an_encoded_packet_restores_it
    (t : N) (s : Shape) (payload : Payload) (frame stale : list byte)
    (listener : ClientListener) (m : Machine) :
  tags_distinct ->
  io_Writer_contract ->
  unmarshalled t s ->
  (t < 256)%N ->
  json_restores s payload ->
  encode (mkNetPacket t payload) = inr frame ->
  (forall data, json_Marshal payload = inr data ->
                gzip_recovers (gzip_Writer_output data ++ stale) data) ->
  clientListener (conn m) = Some listener ->
  NetPacketType_of_byte (hd x00 (frame ++ stale)) = t /\
  (forall data, json_Marshal payload = inr data ->
                tl (frame ++ stale) = gzip_Writer_output data ++ stale) /\
  exists (m' : Machine) (events : list Event),
    handleDatagram (frame ++ stale) m = Returned tt m' /\
    conn m' = conn m /\
    trace m' = trace m ++ events /\
    submissions events = [] /\
    (registered t s -> deliveries events = [mkNetPacket t payload]) /\
    (t = PlayerDisconnectionNotification ->
     deliveries events = [] /\
     In (Log (LogDisconnect (PlayerDisconnectRequestPacket_Id payload))) events).
Proof.
  intros D W R T [data [M U]] E G L.
  destruct (encode_frame _ _ E) as [data' [written [M' [Wr [NZ F]]]]].
  cbn [PacketData PacketType] in M', F. rewrite M in M'. injection M' as <-.
  assert (Tag : NetPacketType_of_byte (byte_of_NetPacketType t) = t).
  { unfold NetPacketType_of_byte, byte_of_NetPacketType, low_byte.
    rewrite N.mod_small by assumption.
    destruct (Byte.of_N t) as [b|] eqn:B.
    - apply Byte.to_of_N. assumption.
    - apply Byte.of_N_None_iff in B. lia. }
  subst frame. cbn [app hd tl]. split; [exact Tag|]. split.
  { intros data' M'. rewrite M in M'. injection M' as <-. reflexivity. }
  destruct (G data M) as [reader [err [O K]]].
  pose proof (handleDatagram_copied
                (byte_of_NetPacketType t :: gzip_Writer_output data ++ stale)
                reader data err m O K) as H.
  cbv zeta in H. cbn [hd] in H. rewrite Tag in H.
  assert (NE : data <> []).
  { intros ->. apply NZ. pose proof (W []) as X. rewrite Wr in X.
    apply X. reflexivity. }
  destruct data as [|b0 data']; [congruence|].
  split_tags D.
  destruct R as [R|[-> ->]].
  - rewrite (dispatch_registered _ _ _ D R) in H.
    rewrite (forward_delivers s t _ payload listener
               (mkMachine (conn m) (trace m ++ map Log (copyEntries t err)))
               U L) in H.
    cbv zeta in H. cbn [conn trace] in H.
    eexists. eexists. split; [exact H|]. cbn [conn trace].
    split; [reflexivity|]. split; [rewrite <- app_assoc; reflexivity|].
    rewrite deliveries_app, submissions_app.
    split; [destruct err; destruct (listener _); reflexivity|].
    split; [intros _; destruct err; destruct (listener _); reflexivity|].
    intros Et. exfalso.
    destruct R as [[-> _]|[[-> _]|[[-> _]|[-> _]]]]; congruence.
  - rewrite (dispatch_disconnection _ _ D) in H. rewrite U in H.
    cbn [conn trace] in H.
    eexists. eexists. split; [exact H|]. cbn [conn trace].
    split; [reflexivity|]. split; [rewrite <- app_assoc; reflexivity|].
    rewrite deliveries_app, submissions_app.
    split; [destruct err; reflexivity|].
    split.
    + intros [[Et _]|[[Et _]|[[Et _]|[Et _]]]]; congruence.
    + intros _. split; [destruct err; reflexivity|].
      apply in_or_app. right. simpl. auto.
Qed.

(** C8.  A ping frame (the tag is [Ping], the gzip header is accepted and
    something was decompressed) that an active connection reads makes the
    turn enter [SendPacketToServer] once, with the pong made from this
    connection's identifier; the one datagram written to the socket is that
    pong's frame; the listener is not called; and the loop goes on. *)
Theorem ping_is_answered_with_one_pong
    (m : Machine) (buffer d : list byte) (rest : list ReadResult)
    (reader : GzipReader) (sb : list byte) (err : option string)
    (c : UDPConn) (frame : list byte) :
  tags_distinct ->
  active (conn m) = true ->
  udpConnection (conn m) = Some c ->
  0 < fst (ReadFromUDP buffer d) ->
  let buffer' := snd (ReadFromUDP buffer d) in
  NetPacketType_of_byte (hd x00 buffer') = Ping ->
  gzip_NewReader (tl buffer') = inr reader ->
  io_Copy reader = (sb, err) ->
  sb <> [] ->
  encode (CreatePongPacket (uniqueId (conn m))) = inr frame ->
  exists (m' : Machine) (events : list Event),
    iteration (ReadOk d) buffer m = Returned buffer' m' /\
    conn m' = conn m /\
    trace m' = trace m ++ events /\
    submissions events = [CreatePongPacket (uniqueId (conn m))] /\
    datagrams events = [frame] /\
    deliveries events = [] /\
    serverListener_from (ReadOk d :: rest) buffer m
    = serverListener_from rest buffer' m'.
Proof.
  intros D A U N buffer' T O K NE E.
  pose proof (handleDatagram_copied buffer' _ _ _ m O K) as H.
  cbv zeta in H. rewrite T in H.
  destruct sb as [|b0 sb']; [congruence|].
  rewrite (dispatch_Ping _
             (mkMachine (conn m) (trace m ++ map Log (copyEntries Ping err)))
             c D U) in H.
  cbv zeta in H. cbn [conn trace] in H.
  match type of H with
  | _ = Returned tt ?after =>
      assert (I : iteration (ReadOk d) buffer m = Returned buffer' after)
  end.
  { rewrite (iteration_arrived _ _ _ N). fold buffer'.
    unfold bind. rewrite H. reflexivity. }
  eexists. eexists. split; [exact I|]. cbn [conn trace].
  split; [reflexivity|]. split; [rewrite <- app_assoc; reflexivity|].
  split; [|split; [|split; [|apply loop_step; [exact A|exact I]]]].
  - rewrite !submissions_app, submissions_sendEvents.
    destruct err; destruct (sendResult _ _); reflexivity.
  - rewrite !datagrams_app. unfold sendEvents, sendResult. cbn [conn].
    rewrite E, U.
    destruct err; destruct (UDPConn_Write _ _ _); reflexivity.
  - rewrite !deliveries_app, deliveries_sendEvents.
    destruct err; destruct (sendResult _ _); reflexivity.
Qed.

(** C9.  With no listener installed, [SendPacketToClient] has no result:
    the call panics, it does not return an error.  So a datagram of one of
    the four forwarded tags that is decoded successfully (the gzip header is
    accepted, something was decompressed, and it unmarshals into the
    structure of the tag) makes the turn, and with it the loop, panic; no
    packet has been handed to a listener. *)
Theorem forwarding_without_listener_panics
    (m : Machine) (buffer d : list byte) (rest : list ReadResult)
    (reader : GzipReader) (sb : list byte) (err : option string)
    (s : Shape) (payload : Payload) :
  tags_distinct ->
  clientListener (conn m) = None ->
  active (conn m) = true ->
  0 < fst (ReadFromUDP buffer d) ->
  let buffer' := snd (ReadFromUDP buffer d) in
  let t := NetPacketType_of_byte (hd x00 buffer') in
  registered t s ->
  gzip_NewReader (tl buffer') = inr reader ->
  io_Copy reader = (sb, err) ->
  sb <> [] ->
  json_Unmarshal s sb = inr payload ->
  (forall packet : NetPacket Payload, SendPacketToClient packet m = Panicked m) /\
  exists m' : Machine,
    iteration (ReadOk d) buffer m = Panicked m' /\
    conn m' = conn m /\
    deliveries (trace m') = deliveries (trace m) /\
    serverListener_from (ReadOk d :: rest) buffer m = Panicked m'.
Proof.
  intros D L A N buffer' t R O K NE U. split.
  - intros packet. unfold SendPacketToClient, bind, receiver, panic.
    rewrite L. reflexivity.
  - pose proof (handleDatagram_copied buffer' _ _ _ m O K) as H.
    cbv zeta in H. fold t in H.
    destruct sb as [|b0 sb']; [congruence|].
    rewrite (dispatch_registered _ _ _ D R) in H.
    rewrite (forward_nil_listener s t _ payload
               (mkMachine (conn m) (trace m ++ map Log (copyEntries t err)))
               U L) in H.
    match type of H with
    | _ = Panicked ?after =>
        assert (I : iteration (ReadOk d) buffer m
                    = @Panicked _ (list byte) after)
    end.
    { rewrite (iteration_arrived _ _ _ N). fold buffer'.
      unfold bind. rewrite H. reflexivity. }
    eexists. split; [exact I|]. cbn [conn trace].
    split; [reflexivity|]. split.
    + rewrite deliveries_app. destruct err; cbn; rewrite app_nil_r; reflexivity.
    + cbn [serverListener_from]. rewrite A. cbn [negb].
      unfold bind. rewrite I. reflexivity.
Qed.

(** C10.  A datagram shorter than the buffer overwrites the front of the
    buffer only.  The turn wraps the whole buffer: the gzip reader is given
    its 4095 bytes after the tag, of which those from position [n] of the
    buffer on are the ones the buffer held before the read. *)
Theorem decoder_is_given_the_whole_buffer
    (m : Machine) (buffer d : list byte) :
  List.length buffer = 4096 ->
  0 < List.length d < 4096 ->
  let n := List.length d in
  let buffer' := d ++ skipn n buffer in
  let input := tl d ++ skipn n buffer in
  ReadFromUDP buffer d = (n, buffer') /\
  List.length buffer' = 4096 /\
  iteration (ReadOk d) buffer m
  = bind (afterNewReader (NetPacketType_of_byte (hd x00 d)) (gzip_NewReader input))
         (fun _ => ret buffer') m /\
  List.length input = 4095 /\
  (forall i, n <= i < 4096 ->
             nth i buffer' x00 = nth i buffer x00 /\
             nth (i - 1) input x00 = nth i buffer x00).
Proof.
  intros LB [P Q] n buffer' input.
  assert (R : ReadFromUDP buffer d = (n, buffer')).
  { unfold ReadFromUDP. fold n. rewrite LB.
    rewrite Nat.min_l by lia. unfold n. rewrite firstn_all. reflexivity. }
  assert (Dn : exists b0 d', d = b0 :: d').
  { destruct d as [|b0 d']; [simpl in P; lia|]. eauto. }
  destruct Dn as [b0 [d' Ed]].
  assert (Ln : List.length d' = n - 1).
  { unfold n. rewrite Ed. simpl. lia. }
  split; [exact R|]. split.
  { unfold buffer'. rewrite length_app, length_skipn. fold n. lia. }
  split.
  { rewrite iteration_arrived by (rewrite R; simpl; lia).
    rewrite R. cbn [snd]. unfold handleDatagram, buffer', input.
    rewrite Ed. reflexivity. }
  split.
  { unfold input. rewrite length_app, length_skipn. rewrite Ed. cbn [tl].
    rewrite Ln. lia. }
  intros i [Lo Hi]. split.
  - unfold buffer'. rewrite app_nth2 by (fold n; lia).
    rewrite nth_skipn. fold n. f_equal. lia.
  - unfold input. rewrite Ed. cbn [tl].
    rewrite app_nth2 by lia. rewrite nth_skipn. f_equal. lia.
Qed.

(** *** What the loop may do: an invariant of the monad *)

Lemma tidy_ret {A : Type} (id : string) (a : A) : tidy id (ret a).
Proof.
  intros m _. split; [reflexivity|].
  exists []. split; [cbn; rewrite app_nil_r; reflexivity|constructor].
Qed.

Lemma tidy_panic {A : Type} (id : string) : tidy id (@panic _ A).
Proof.
  intros m _. split; [reflexivity|].
  exists []. split; [cbn; rewrite app_nil_r; reflexivity|constructor].
Qed.

Lemma tidy_log (id : string) (entry : LogEntry) : tidy id (emit (Log entry)).
Proof.
  intros m _. split; [reflexivity|].
  exists [Log entry]. split; [reflexivity|]. repeat constructor.
Qed.

Lemma tidy_bind {A B : Type} (id : string) (c : Go A) (k : A -> Go B) :
  tidy id c -> (forall a, tidy id (k a)) -> tidy id (bind c k).
Proof.
  intros Hc Hk m Hid. unfold bind.
  destruct (Hc m Hid) as [Cc [ec [Tc Fc]]].
  destruct (c m) as [a m1|m1]; cbn [machineAfter] in *.
  - assert (Hid1 : uniqueId (conn m1) = id) by (rewrite Cc; exact Hid).
    destruct (Hk a m1 Hid1) as [Ck [ek [Tk Fk]]].
    split; [rewrite Ck; exact Cc|].
    exists (ec ++ ek). split.
    + rewrite Tk, Tc, app_assoc. reflexivity.
    + apply Forall_app. split; assumption.
  - split; [exact Cc|]. exists ec. split; assumption.
Qed.

Lemma tidy_pong (id : string) :
  tidy id
    (bind receiver
       (fun l =>
          bind (SendPacketToServer (CreatePongPacket (uniqueId l)))
               (fun err =>
                  match err with
                  | Some e => emit (Log (LogPingError e))
                  | None => ret tt
                  end))).
Proof.
  intros m Hid.
  match goal with
  | |- context [bind receiver ?k m] =>
      replace (bind receiver k m) with (k (conn m) m) by reflexivity
  end.
  cbv beta. rewrite Hid.
  apply tidy_bind; [|intros [e|]; [apply tidy_log|apply tidy_ret]|exact Hid].
  clear m Hid. intros m Hid. rewrite SendPacketToServer_ends. cbv zeta.
  assert (F : Forall (loopEvent id) (sendEvents (CreatePongPacket id) m)).
  { unfold sendEvents. constructor; [reflexivity|].
    destruct (encode (CreatePongPacket id)) as [e|frame] eqn:E;
      [constructor|].
    destruct (udpConnection (conn m)); repeat constructor. exact E. }
  destruct (sendPanics _ m); cbn [machineAfter conn trace];
    (split; [reflexivity|eexists; split; [reflexivity|exact F]]).
Qed.

Lemma tidy_forward (id : string) (s : Shape) (t : N) (sb : list byte) :
  In t [GenerateMap; MovePlayer; UpdateServerInfo; AddPlayer] ->
  tidy id (forward s t sb).
Proof.
  intros Ht. unfold forward.
  destruct (json_Unmarshal s sb) as [msg|packet]; [apply tidy_log|].
  apply tidy_bind; [|intros [e|]; [apply tidy_log|apply tidy_ret]].
  intros m _.
  assert (E : SendPacketToClient (mkNetPacket t packet) m
              = match clientListener (conn m) with
                | Some listener =>
                    let result := listener (mkNetPacket t packet) in
                    Returned (option_map External result)
                      (mkMachine (conn m)
                         (trace m ++ [Delivered (mkNetPacket t packet) result]))
                | None => Panicked m
                end).
  { unfold SendPacketToClient, bind, receiver, emit, ret, panic.
    destruct (clientListener (conn m)); reflexivity. }
  rewrite E. destruct (clientListener (conn m)) as [listener|].
  - cbn [machineAfter conn trace].
    split; [reflexivity|]. eexists. split; [reflexivity|].
    constructor; [exact Ht|constructor].
  - cbn [machineAfter]. split; [reflexivity|].
    exists []. split; [rewrite app_nil_r; reflexivity|constructor].
Qed.

Lemma tidy_dispatch (id : string) (t : N) (sb : list byte) :
  tidy id (dispatch t sb).
Proof.
  unfold dispatch.
  destruct (N.eqb_spec t GenerateMap) as [->|_];
    [apply tidy_forward; simpl; auto|].
  destruct (N.eqb_spec t MovePlayer) as [->|_];
    [apply tidy_forward; simpl; auto|].
  destruct (N.eqb_spec t UpdateServerInfo) as [->|_];
    [apply tidy_forward; simpl; auto|].
  destruct (N.eqb_spec t AddPlayer) as [->|_];
    [apply tidy_forward; simpl; auto|].
  destruct (N.eqb t Ping); [apply tidy_pong|].
  destruct (N.eqb t PlayerDisconnectionNotification); [|apply tidy_log].
  destruct (json_Unmarshal PlayerDisconnectRequestPacket sb); apply tidy_log.
Qed.

Lemma tidy_handleDatagram (id : string) (buffer : list byte) :
  tidy id (handleDatagram buffer).
Proof.
  unfold handleDatagram, afterNewReader.
  destruct (gzip_NewReader (tl buffer)) as [msg|reader]; [apply tidy_panic|].
  destruct (io_Copy reader) as [sb err].
  apply tidy_bind.
  - destruct err; [apply tidy_log|apply tidy_ret].
  - intros _. destruct (Nat.eqb (List.length sb) 0);
      [apply tidy_log|apply tidy_dispatch].
Qed.

Lemma tidy_iteration (id : string) (r : ReadResult) (buffer : list byte) :
  tidy id (iteration r buffer).
Proof.
  unfold iteration. destruct r as [d|msg].
  - destruct (ReadFromUDP buffer d) as [n buffer'].
    destruct (Nat.leb n 0); [apply tidy_ret|].
    apply tidy_bind; [apply tidy_handleDatagram|intros; apply tidy_ret].
  - apply tidy_bind; [apply tidy_log|intros; apply tidy_ret].
Qed.

Lemma tidy_serverListener_from
    (id : string) (reads : list ReadResult) (buffer : list byte) :
  tidy id (serverListener_from reads buffer).
Proof.
  revert buffer. induction reads as [|r rest IH]; intros buffer m Hid;
    cbn [serverListener_from].
  - destruct (negb (active (conn m))); apply (tidy_ret id _ m Hid).
  - destruct (negb (active (conn m))); [apply (tidy_ret id _ m Hid)|].
    apply (tidy_bind id (iteration r buffer)
             (fun buffer' => serverListener_from rest buffer'));
      [apply tidy_iteration|intros; apply IH|exact Hid].
Qed.


Lemma loopEvents_projections (id : string) (events : list Event) :
  Forall (loopEvent id) events ->
  Forall (fun packet => packet = CreatePongPacket id) (submissions events) /\
  Forall (fun frame => encode (CreatePongPacket id) = inr frame) (datagrams events) /\
  Forall (fun packet =>
            In (PacketType packet)
               [GenerateMap; MovePlayer; UpdateServerInfo; AddPlayer])
         (deliveries events) /\
  resolutions events = [] /\
  goroutines events = 0.
Proof.
  induction 1 as [|e events He _ IH]; [cbn; auto 6|].
  destruct IH as [S [W [D [R G]]]].
  destruct e; cbn in He |- *; try contradiction; auto 6.
Qed.

(** *** Further properties of the receive loop *)

(** X1.  Whatever is read and however the run ends, [serverListener] leaves
    the connection as it was (flag, identifier, socket, listener); the only
    packet it submits is the pong of this connection and the only datagrams
    it writes are that pong's frame; the listener gets only packets with one
    of the four forwarded tags; nothing is resolved and no goroutine is
    started. *)
Theorem receive_loop_only_answers_and_forwards
    (reads : list ReadResult) (buffer : list byte) (m : Machine) :
  conn (machineAfter (serverListener_from reads buffer m)) = conn m /\
  exists events : list Event,
    trace (machineAfter (serverListener_from reads buffer m)) = trace m ++ events /\
    Forall (fun packet => packet = CreatePongPacket (uniqueId (conn m)))
           (submissions events) /\
    Forall (fun frame => encode (CreatePongPacket (uniqueId (conn m))) = inr frame)
           (datagrams events) /\
    Forall (fun packet =>
              In (PacketType packet)
                 [GenerateMap; MovePlayer; UpdateServerInfo; AddPlayer])
           (deliveries events) /\
    resolutions events = [] /\
    goroutines events = 0.
Proof.
  destruct (tidy_serverListener_from (uniqueId (conn m)) reads buffer m eq_refl)
    as [Cm [events [T F]]].
  split; [exact Cm|]. exists events. split; [exact T|].
  apply loopEvents_projections. exact F.
Qed.

(** X2.  The flag is the loop's only way out.  Found false, the loop exits
    at once: nothing is read and nothing happens.  Found true, no sequence of
    reads makes the loop exit: it ends waiting for the next datagram, or in a
    panic. *)
Theorem receive_loop_exits_only_on_the_flag
    (reads : list ReadResult) (buffer : list byte) (m : Machine) :
  (active (conn m) = false ->
   serverListener_from reads buffer m = Returned Exited m) /\
  (active (conn m) = true ->
   statusOf (serverListener_from reads buffer m) <> Some Exited).
Proof.
  split.
  - intros A. destruct reads; cbn [serverListener_from]; rewrite A; reflexivity.
  - revert buffer m. induction reads as [|r rest IH]; intros buffer m A;
      cbn [serverListener_from]; rewrite A; cbn [negb].
    + discriminate.
    + unfold bind.
      pose proof (tidy_iteration (uniqueId (conn m)) r buffer m eq_refl) as [Cm _].
      destruct (iteration r buffer m) as [buffer' m1|m1]; [|discriminate].
      cbn [machineAfter] in Cm. apply IH. rewrite Cm. exact A.
Qed.

(** X3.  Read errors and datagrams of no bytes never reach the decoder.  A
    run over such reads only prints one line per read error, in order; the
    connection is as it was and the loop waits for the next datagram. *)
Theorem idle_reads_are_only_logged
    (reads : list ReadResult) (buffer : list byte) (m : Machine) :
  forallb idle reads = true ->
  active (conn m) = true ->
  serverListener_from reads buffer m
  = Returned AwaitingDatagram
      (mkMachine (conn m) (trace m ++ map Log (socketErrors reads))).
Proof.
  revert m. induction reads as [|r rest IH]; intros m I A;
    cbn [serverListener_from]; rewrite A; cbn [negb].
  - cbn. rewrite app_nil_r. destruct m; reflexivity.
  - cbn [forallb] in I. apply andb_true_iff in I. destruct I as [Ir I].
    destruct r as [[|b d]|msg]; [|discriminate|].
    + unfold bind, iteration, ReadFromUDP. cbn [List.length Nat.min firstn skipn app
                                                   Nat.leb ret].
      cbn [socketErrors]. apply IH; assumption.
    + unfold iteration. unfold bind, emit, ret. cbn [socketErrors map].
      rewrite (IH (mkMachine (conn m) (trace m ++ [Log (LogSocketError msg)])) I A).
      cbn [conn trace]. rewrite <- app_assoc. reflexivity.
Qed.

(** X4.  One datagram whose gzip header is not accepted stops the loop for
    good: the error of [gzip.NewReader] is overwritten without being read,
    [io.Copy] is called on the nil reader and panics; nothing is printed and
    no later datagram is processed. *)
Theorem rejected_header_stops_the_loop
    (m : Machine) (buffer d : list byte) (msg : string) (rest : list ReadResult) :
  active (conn m) = true ->
  0 < fst (ReadFromUDP buffer d) ->
  gzip_NewReader (tl (snd (ReadFromUDP buffer d))) = inl msg ->
  serverListener_from (ReadOk d :: rest) buffer m = Panicked m.
Proof.
  intros A N O. cbn [serverListener_from]. rewrite A. cbn [negb].
  unfold bind. rewrite (rejected_header_panics m buffer d msg N O). reflexivity.
Qed.


(** *** Further properties of [Open], [Close] and [SendPacketToServer] *)

(** X5.  When the address resolves, the socket is dialed and the send of
    the connection request returns no error, [Open] returns nil, whatever the
    connection was before: the dialed socket is stored, the flag is true,
    listener and identifier are as they were, one goroutine has been started,
    the one packet submitted is the connection request made from this
    connection's identifier and the loaded player state, and the one
    datagram written is that packet's frame. *)
Theorem Open_success
    (s path : string) (m : Machine) (a : UDPAddr) (c : UDPConn) :
  net_ResolveUDPAddr (withDefaultPort s) = inr a ->
  net_DialUDP a = inr c ->
  (exists m2,
      SendPacketToServer
        (CreatePlayerConnectionRequestPacket (uniqueId (conn m)) (LoadPlayerState path))
        (opened m (withDefaultPort s) a c)
      = Returned None m2) ->
  exists (m' : Machine) (events : list Event) (frame : list byte),
    Open s path m = Returned None m' /\
    conn m' = mkConnection (clientListener (conn m)) (uniqueId (conn m)) (Some c) true /\
    trace m' = trace m ++ events /\
    goroutines events = 1 /\
    submissions events
    = [CreatePlayerConnectionRequestPacket (uniqueId (conn m)) (LoadPlayerState path)] /\
    encode (CreatePlayerConnectionRequestPacket (uniqueId (conn m))
              (LoadPlayerState path)) = inr frame /\
    datagrams events = [frame].
Proof.
  intros R D [m2 S].
  rewrite (SendPacketToServer_runs _ (opened m (withDefaultPort s) a c) c eq_refl)
    in S.
  injection S as S _.
  rewrite (Open_connected s path m _ _ R D). cbv zeta. rewrite S.
  unfold sendResult in S. unfold sendEvents.
  destruct (encode _) as [e|frame]; [discriminate|].
  cbn [opened conn udpConnection] in S |- *.
  destruct (UDPConn_Write c _ frame) as [w|]; [discriminate|].
  eexists.
  exists ([Resolve (withDefaultPort s); Dial a; GoServerListener;
           Log (LogConnected (UDPConn_RemoteAddr c))] ++
          [Submitted (CreatePlayerConnectionRequestPacket (uniqueId (conn m))
                        (LoadPlayerState path));
           Wrote frame None]).
  exists frame. split; [reflexivity|]. cbn [conn trace].
  split; [reflexivity|].
  split; [rewrite app_nil_r, app_assoc; reflexivity|].
  cbn. auto.
Qed.

(** X6.  A failed dial overwrites the stored socket with nil and leaves the
    flag as it was.  So when [Open] is called on a connection that is open
    and the dial fails, the connection stays active without a socket, and the
    next send of a packet that can be encoded panics. *)
Theorem failed_dial_drops_the_socket
    (s path : string) (m : Machine) (a : UDPAddr) (msg : string)
    (packet : NetPacket Payload) (frame : list byte) :
  net_ResolveUDPAddr (withDefaultPort s) = inr a ->
  net_DialUDP a = inl msg ->
  encode packet = inr frame ->
  exists m' : Machine,
    Open s path m = Returned (Some (External msg)) m' /\
    udpConnection (conn m') = None /\
    active (conn m') = active (conn m) /\
    SendPacketToServer packet m'
    = Panicked (mkMachine (conn m') (trace m' ++ [Submitted packet])).
Proof.
  intros R D E.
  assert (O : Open s path m
              = Returned (Some (External msg))
                  (mkMachine
                     (mkConnection (clientListener (conn m)) (uniqueId (conn m))
                                   None (active (conn m)))
                     (trace m ++ [Resolve (withDefaultPort s); Dial a]))).
  { unfold Open, bind, emit, assign, ret. cbn. rewrite R. cbn. rewrite D. cbn.
    rewrite <- app_assoc. reflexivity. }
  eexists. split; [exact O|]. cbn [conn udpConnection active].
  split; [reflexivity|]. split; [reflexivity|].
  rewrite SendPacketToServer_ends. cbv zeta.
  unfold sendPanics, sendEvents. rewrite E. reflexivity.
Qed.

(** X7.  [SendPacketToServer] reports success only after one write: when it
    returns nil there is a socket, the packet was encoded, and exactly one
    datagram was written, successfully; the datagram is the tag byte followed
    by the gzip writer's output for the marshalled payload.  The connection
    is as it was. *)
Theorem send_success_means_one_write
    (packet : NetPacket Payload) (m m' : Machine) :
  SendPacketToServer packet m = Returned None m' ->
  exists (c : UDPConn) (data : list byte),
    udpConnection (conn m) = Some c /\
    json_Marshal (PacketData packet) = inr data /\
    conn m' = conn m /\
    trace m'
    = trace m ++
      [Submitted packet;
       Wrote (byte_of_NetPacketType (PacketType packet) :: gzip_Writer_output data)
             None].
Proof.
  rewrite SendPacketToServer_ends. cbv zeta.
  unfold sendPanics, sendResult, sendEvents.
  destruct (encode packet) as [e|frame] eqn:E.
  - destruct (udpConnection (conn m)); discriminate.
  - destruct (udpConnection (conn m)) as [c|]; [|discriminate].
    destruct (encode_frame _ _ E) as [data [written [M [_ [_ F]]]]].
    destruct (UDPConn_Write c _ frame) as [w|] eqn:W; [discriminate|].
    intros S. injection S as <-.
    exists c, data. subst frame. cbn [conn trace]. repeat split. exact M.
Qed.

(** X8.  When the payload cannot be marshalled, or the gzip writer answers
    an error to [Write] or to [Close], [SendPacketToServer] returns that
    error and the socket is not touched: nothing is written, and the call
    returns even on a connection that has no socket. *)
Theorem encoding_error_is_returned_before_the_socket
    (packet : NetPacket Payload) (m : Machine) (msg : string) :
  json_Marshal (PacketData packet) = inl msg \/
  (exists data,
      json_Marshal (PacketData packet) = inr data /\
      (snd (gzip_Writer_Write data) = Some msg \/
       (exists written,
           gzip_Writer_Write data = (S written, None) /\
           gzip_Writer_Close data = Some msg))) ->
  SendPacketToServer packet m
  = Returned (Some (External msg))
      (mkMachine (conn m) (trace m ++ [Submitted packet])).
Proof.
  intros H.
  assert (E : encode packet = inl (External msg)).
  { unfold encode.
    destruct H as [M|[data [M [W|[written [W Cl]]]]]]; rewrite M.
    - reflexivity.
    - destruct (gzip_Writer_Write data) as [w e]. cbn in W. subst e. reflexivity.
    - rewrite W. cbn [Nat.eqb]. rewrite Cl. reflexivity. }
  rewrite SendPacketToServer_ends. cbv zeta.
  unfold sendPanics, sendResult, sendEvents. rewrite E.
  destruct (udpConnection (conn m)); reflexivity.
Qed.


(** *** Further properties of the dispatch *)

Lemma dispatch_not_forwarded
    (t : N) (sb : list byte) (m : Machine) (c : UDPConn) :
  ~ In t [GenerateMap; MovePlayer; UpdateServerInfo; AddPlayer] ->
  udpConnection (conn m) = Some c ->
  exists events : list Event,
    dispatch t sb m = Returned tt (mkMachine (conn m) (trace m ++ events)) /\
    deliveries events = [].
Proof.
  intros NF U. unfold dispatch.
  repeat match goal with
         | |- context [N.eqb t ?tag] =>
             lazymatch tag with
             | Ping => fail
             | PlayerDisconnectionNotification => fail
             | _ => destruct (N.eqb_spec t tag);
                    [exfalso; apply NF; simpl; auto|]
             end
         end.
  destruct (N.eqb t Ping).
  - unfold bind at 1 2, receiver. rewrite (SendPacketToServer_runs _ _ c U).
    exists (sendEvents (CreatePongPacket (uniqueId (conn m))) m ++
            match sendResult (CreatePongPacket (uniqueId (conn m))) m with
            | Some e => [Log (LogPingError e)]
            | None => []
            end).
    split.
    + destruct (sendResult _ m); unfold emit, ret; cbn -[sendEvents].
      * rewrite <- app_assoc. reflexivity.
      * rewrite app_nil_r. reflexivity.
    + rewrite deliveries_app, deliveries_sendEvents.
      destruct (sendResult _ m); reflexivity.
  - destruct (N.eqb t PlayerDisconnectionNotification).
    + destruct (json_Unmarshal PlayerDisconnectRequestPacket sb);
        eexists; split; reflexivity.
    + eexists; split; reflexivity.
Qed.

(** X9.  An error of the listener is printed and goes no further.  For a
    datagram of a forwarded tag that decodes, the listener is called once,
    with the decoded packet; when it answers an error a line with that error
    is printed, nothing is sent to the server, and the loop goes on with the
    next read. *)
Theorem listener_error_is_logged_and_swallowed
    (m : Machine) (buffer d : list byte) (rest : list ReadResult)
    (reader : GzipReader) (sb : list byte) (err : option string)
    (s : Shape) (payload : Payload) (listener : ClientListener) (msg : string) :
  tags_distinct ->
  active (conn m) = true ->
  clientListener (conn m) = Some listener ->
  0 < fst (ReadFromUDP buffer d) ->
  let buffer' := snd (ReadFromUDP buffer d) in
  let t := NetPacketType_of_byte (hd x00 buffer') in
  registered t s ->
  gzip_NewReader (tl buffer') = inr reader ->
  io_Copy reader = (sb, err) ->
  sb <> [] ->
  json_Unmarshal s sb = inr payload ->
  listener (mkNetPacket t payload) = Some msg ->
  exists (m' : Machine) (events : list Event),
    iteration (ReadOk d) buffer m = Returned buffer' m' /\
    conn m' = conn m /\
    trace m' = trace m ++ events /\
    deliveries events = [mkNetPacket t payload] /\
    In (Log (LogProcessingError t (External msg))) events /\
    submissions events = [] /\
    datagrams events = [] /\
    serverListener_from (ReadOk d :: rest) buffer m
    = serverListener_from rest buffer' m'.
Proof.
  intros D A L N buffer' t R O K NE U Lm.
  pose proof (handleDatagram_copied buffer' _ _ _ m O K) as H.
  cbv zeta in H. fold t in H.
  destruct sb as [|b0 sb']; [congruence|].
  rewrite (dispatch_registered _ _ _ D R) in H.
  rewrite (forward_delivers s t _ payload listener
             (mkMachine (conn m) (trace m ++ map Log (copyEntries t err)))
             U L) in H.
  cbv zeta in H. rewrite Lm in H. cbn [conn trace] in H.
  match type of H with
  | _ = Returned tt ?after =>
      assert (I : iteration (ReadOk d) buffer m = Returned buffer' after)
  end.
  { rewrite (iteration_arrived _ _ _ N). fold buffer'.
    unfold bind. rewrite H. reflexivity. }
  eexists. eexists. split; [exact I|]. cbn [conn trace].
  split; [reflexivity|]. split; [rewrite <- app_assoc; reflexivity|].
  split; [|split; [|split; [|split; [|apply loop_step; [exact A|exact I]]]]].
  - rewrite deliveries_app. destruct err; reflexivity.
  - apply in_or_app. right. simpl. auto.
  - rewrite submissions_app. destruct err; reflexivity.
  - rewrite datagrams_app. destruct err; reflexivity.
Qed.

(** X10.  A pong that cannot be sent is printed and goes no further.  For a
    ping frame read by an active connection with a socket: when the pong
    cannot be encoded, the error is printed and nothing is written; when the
    socket refuses the write, its error is printed and the one datagram
    handed to the socket was the pong's frame.  Either way the loop goes on
    with the next read. *)
Theorem pong_failure_is_logged_and_swallowed
    (m : Machine) (buffer d : list byte) (rest : list ReadResult)
    (reader : GzipReader) (sb : list byte) (err : option string) (c : UDPConn) :
  tags_distinct ->
  active (conn m) = true ->
  udpConnection (conn m) = Some c ->
  0 < fst (ReadFromUDP buffer d) ->
  let buffer' := snd (ReadFromUDP buffer d) in
  NetPacketType_of_byte (hd x00 buffer') = Ping ->
  gzip_NewReader (tl buffer') = inr reader ->
  io_Copy reader = (sb, err) ->
  sb <> [] ->
  exists (m' : Machine) (events : list Event),
    iteration (ReadOk d) buffer m = Returned buffer' m' /\
    conn m' = conn m /\
    trace m' = trace m ++ events /\
    serverListener_from (ReadOk d :: rest) buffer m
    = serverListener_from rest buffer' m' /\
    (forall e, encode (CreatePongPacket (uniqueId (conn m))) = inl e ->
               In (Log (LogPingError e)) events /\ datagrams events = []) /\
    (forall frame msg,
        encode (CreatePongPacket (uniqueId (conn m))) = inr frame ->
        (forall now, UDPConn_Write c now frame = Some msg) ->
        In (Log (LogPingError (External msg))) events /\
        datagrams events = [frame]).
Proof.
  intros D A U N buffer' T O K NE.
  pose proof (handleDatagram_copied buffer' _ _ _ m O K) as H.
  cbv zeta in H. rewrite T in H.
  destruct sb as [|b0 sb']; [congruence|].
  rewrite (dispatch_Ping _
             (mkMachine (conn m) (trace m ++ map Log (copyEntries Ping err)))
             c D U) in H.
  cbv zeta in H. cbn [conn trace] in H.
  match type of H with
  | _ = Returned tt ?after =>
      assert (I : iteration (ReadOk d) buffer m = Returned buffer' after)
  end.
  { rewrite (iteration_arrived _ _ _ N). fold buffer'.
    unfold bind. rewrite H. reflexivity. }
  eexists. eexists. split; [exact I|]. cbn [conn trace].
  split; [reflexivity|]. split; [rewrite <- app_assoc; reflexivity|].
  split; [apply loop_step; [exact A|exact I]|].
  unfold sendEvents, sendResult. cbn [conn trace]. rewrite U. split.
  - intros e E. rewrite E. split.
    + apply in_or_app. right. simpl. auto.
    + rewrite datagrams_app. destruct err; reflexivity.
  - intros frame msg E W. rewrite E, W. split.
    + apply in_or_app. right. simpl. auto.
    + rewrite datagrams_app. destruct err; reflexivity.
Qed.

(** X11.  [SetClientListener] changes the listener and nothing else, and
    the listener installed last is the one the loop calls: after it, a
    datagram of a forwarded tag that decodes is handed to that listener,
    whatever listener (or none) the connection had before. *)
Theorem installed_listener_receives_forwarded_packets
    (m : Machine) (buffer d : list byte)
    (reader : GzipReader) (sb : list byte) (err : option string)
    (s : Shape) (payload : Payload) (listener : ClientListener) :
  tags_distinct ->
  0 < fst (ReadFromUDP buffer d) ->
  let buffer' := snd (ReadFromUDP buffer d) in
  let t := NetPacketType_of_byte (hd x00 buffer') in
  registered t s ->
  gzip_NewReader (tl buffer') = inr reader ->
  io_Copy reader = (sb, err) ->
  sb <> [] ->
  json_Unmarshal s sb = inr payload ->
  exists m1 : Machine,
    SetClientListener (Some listener) m = Returned tt m1 /\
    conn m1 = mkConnection (Some listener) (uniqueId (conn m))
                           (udpConnection (conn m)) (active (conn m)) /\
    trace m1 = trace m /\
    exists (m' : Machine) (events : list Event),
      iteration (ReadOk d) buffer m1 = Returned buffer' m' /\
      trace m' = trace m ++ events /\
      deliveries events = [mkNetPacket t payload] /\
      In (Delivered (mkNetPacket t payload) (listener (mkNetPacket t payload)))
         events.
Proof.
  intros D N buffer' t R O K NE U.
  eexists. split; [reflexivity|]. cbn [conn trace].
  split; [reflexivity|]. split; [reflexivity|].
  match goal with
  | |- context [iteration _ _ ?m1] => set (installed := m1)
  end.
  pose proof (handleDatagram_copied buffer' _ _ _ installed O K) as H.
  cbv zeta in H. fold t in H.
  destruct sb as [|b0 sb']; [congruence|].
  rewrite (dispatch_registered _ _ _ D R) in H.
  rewrite (forward_delivers s t _ payload listener
             (mkMachine (conn installed)
                (trace installed ++ map Log (copyEntries t err)))
             U eq_refl) in H.
  cbv zeta in H. cbn [conn trace] in H.
  eexists. eexists. split.
  { rewrite (iteration_arrived _ _ _ N). fold buffer'.
    unfold bind. rewrite H. reflexivity. }
  cbn [conn trace installed].
  split; [rewrite <- app_assoc; reflexivity|]. split.
  - rewrite deliveries_app.
    destruct err; destruct (listener _); reflexivity.
  - apply in_or_app. right. simpl. auto.
Qed.

(** X12.  Only the four forwarded tags need a listener.  A datagram with any
    other tag, read by a connection that has a socket and accepted by the
    gzip reader, never reaches the listener: the turn returns, also when no
    listener is installed, and the loop goes on. *)
Theorem other_tags_never_reach_the_listener
    (m : Machine) (buffer d : list byte) (rest : list ReadResult)
    (reader : GzipReader) (sb : list byte) (err : option string) (c : UDPConn) :
  active (conn m) = true ->
  udpConnection (conn m) = Some c ->
  0 < fst (ReadFromUDP buffer d) ->
  let buffer' := snd (ReadFromUDP buffer d) in
  let t := NetPacketType_of_byte (hd x00 buffer') in
  ~ In t [GenerateMap; MovePlayer; UpdateServerInfo; AddPlayer] ->
  gzip_NewReader (tl buffer') = inr reader ->
  io_Copy reader = (sb, err) ->
  exists (m' : Machine) (events : list Event),
    iteration (ReadOk d) buffer m = Returned buffer' m' /\
    conn m' = conn m /\
    trace m' = trace m ++ events /\
    deliveries events = [] /\
    serverListener_from (ReadOk d :: rest) buffer m
    = serverListener_from rest buffer' m'.
Proof.
  intros A U N buffer' t NF O K.
  pose proof (handleDatagram_copied buffer' _ _ _ m O K) as H.
  cbv zeta in H. fold t in H.
  assert (G : exists events,
             handleDatagram buffer' m
             = Returned tt (mkMachine (conn m) (trace m ++ events)) /\
             deliveries events = []).
  { rewrite H. destruct sb as [|b0 sb'].
    - eexists. split.
      + cbn [conn trace]. rewrite <- app_assoc. reflexivity.
      + rewrite deliveries_app. destruct err; reflexivity.
    - destruct (dispatch_not_forwarded t (b0 :: sb')
                  (mkMachine (conn m) (trace m ++ map Log (copyEntries t err)))
                  c NF U) as [events [E Dl]].
      rewrite E. cbn [conn trace]. eexists. split.
      + rewrite <- app_assoc. reflexivity.
      + rewrite deliveries_app, Dl. destruct err; reflexivity. }
  destruct G as [events [G Dl]].
  assert (I : iteration (ReadOk d) buffer m
              = Returned buffer' (mkMachine (conn m) (trace m ++ events))).
  { rewrite (iteration_arrived _ _ _ N). fold buffer'.
    unfold bind. rewrite G. reflexivity. }
  eexists. exists events. split; [exact I|]. cbn [conn trace].
  repeat split; try assumption. apply loop_step; [exact A|exact I].
Qed.


(** *** Further properties of the connection's life *)

Lemma Close_ends (m : Machine) :
  Close m
  = let request := CreatePlayerDisconnectRequestPacket (uniqueId (conn m)) in
    let m1 := withActive false m in
    let m' := mkMachine (conn m1) (trace m ++ sendEvents request m1) in
    if sendPanics request m1 then Panicked m'
    else Returned (sendResult request m1) m'.
Proof.
  unfold Close, bind at 1 2 3, assign, receiver, GetUniqueId.
  cbn -[SendPacketToServer bind sendEvents sendPanics sendResult].
  fold (withActive false m).
  rewrite SendPacketToServer_ends. cbv zeta.
  cbn -[sendEvents sendPanics sendResult withActive].
  destruct (sendPanics _ _); [reflexivity|].
  destruct (sendResult _ _); reflexivity.
Qed.

Lemma Open_ends (s path : string) (m : Machine) :
  exists (result : option error) (m' : Machine),
    Open s path m = Returned result m' /\
    clientListener (conn m') = clientListener (conn m) /\
    uniqueId (conn m') = uniqueId (conn m).
Proof.
  destruct (net_ResolveUDPAddr (withDefaultPort s)) as [msg|a] eqn:R.
  - unfold Open, bind, emit, ret. cbn. rewrite R. cbn.
    eexists. eexists. split; [reflexivity|]. split; reflexivity.
  - destruct (net_DialUDP a) as [msg|c] eqn:D.
    + unfold Open, bind, emit, assign, ret. cbn. rewrite R. cbn. rewrite D. cbn.
      eexists. eexists. split; [reflexivity|]. split; reflexivity.
    + rewrite (Open_connected s path m _ _ R D). cbv zeta.
      eexists. eexists. split; [reflexivity|]. split; reflexivity.
Qed.

(** X13.  The identifier given at construction is the one [GetUniqueId]
    answers for the whole life of the connection: [Open], [Close],
    [SetClientListener], [SendPacketToServer], [SendPacketToClient] and the
    receive loop all leave it as it is, however they end. *)
Theorem identifier_never_changes (m : Machine) :
  (forall s path,
      GetUniqueId (conn (machineAfter (Open s path m))) = GetUniqueId (conn m)) /\
  GetUniqueId (conn (machineAfter (Close m))) = GetUniqueId (conn m) /\
  (forall listener,
      GetUniqueId (conn (machineAfter (SetClientListener listener m)))
      = GetUniqueId (conn m)) /\
  (forall packet,
      GetUniqueId (conn (machineAfter (SendPacketToServer packet m)))
      = GetUniqueId (conn m)) /\
  (forall packet,
      GetUniqueId (conn (machineAfter (SendPacketToClient packet m)))
      = GetUniqueId (conn m)) /\
  (forall reads,
      GetUniqueId (conn (machineAfter (serverListener reads m)))
      = GetUniqueId (conn m)).
Proof.
  unfold GetUniqueId. repeat split.
  - intros s path. destruct (Open_ends s path m) as [r [m' [O [_ U]]]].
    rewrite O. exact U.
  - rewrite Close_ends. cbv zeta. destruct (sendPanics _ _); reflexivity.
  - intros packet. rewrite SendPacketToServer_ends. cbv zeta.
    destruct (sendPanics _ _); reflexivity.
  - intros packet. unfold SendPacketToClient, bind, receiver, emit, ret, panic.
    destruct (clientListener (conn m)); reflexivity.
  - intros reads. unfold serverListener.
    destruct (tidy_serverListener_from (uniqueId (conn m)) reads
                (repeat x00 4096) m eq_refl) as [Cm _].
    rewrite Cm. reflexivity.
Qed.

Lemma colon_in_appended (s : string) :
  In ":"%char (list_ascii_of_string (s ++ ":6669")).
Proof.
  induction s as [|a s IH]; simpl; auto.
Qed.

(** X14.  The address [Open] hands to the resolver always contains a colon,
    and normalizing it again changes nothing: the default port is appended at
    most once. *)
Theorem default_port_is_appended_once (s : string) :
  strings_Contains (withDefaultPort s) ":" = true /\
  withDefaultPort (withDefaultPort s) = withDefaultPort s.
Proof.
  assert (K : strings_Contains (withDefaultPort s) ":" = true).
  { unfold withDefaultPort. destruct (strings_Contains s ":") eqn:E; cbn [negb].
    - exact E.
    - apply strings_Contains_colon, colon_in_appended. }
  split; [exact K|].
  unfold withDefaultPort at 1. rewrite K. reflexivity.
Qed.

(** X15.  [Close] does not look at the flag.  Closing a connection that is
    already closed submits the disconnect request again: after two calls on a
    connection with a socket both have returned, the flag is false and two
    disconnect requests have been submitted. *)
Theorem closing_twice_submits_two_disconnects (m : Machine) (c : UDPConn) :
  udpConnection (conn m) = Some c ->
  exists (e1 e2 : option error) (m1 m2 : Machine) (events : list Event),
    Close m = Returned e1 m1 /\
    Close m1 = Returned e2 m2 /\
    active (conn m1) = false /\
    active (conn m2) = false /\
    trace m2 = trace m ++ events /\
    submissions events
    = [CreatePlayerDisconnectRequestPacket (uniqueId (conn m));
       CreatePlayerDisconnectRequestPacket (uniqueId (conn m))].
Proof.
  intros U.
  assert (P : forall n, udpConnection (conn n) = Some c ->
                        sendPanics
                          (CreatePlayerDisconnectRequestPacket (uniqueId (conn n)))
                          (withActive false n) = false).
  { intros n Un. apply (sendPanics_socket _ _ c). exact Un. }
  pose proof (Close_ends m) as E1. cbv zeta in E1. rewrite (P m U) in E1.
  match type of E1 with
  | _ = Returned ?e ?after => set (e1 := e) in *; set (m1 := after) in *
  end.
  assert (U1 : udpConnection (conn m1) = Some c) by exact U.
  pose proof (Close_ends m1) as E2. cbv zeta in E2. rewrite (P m1 U1) in E2.
  eexists. eexists. eexists. eexists. eexists.
  split; [exact E1|]. split; [exact E2|].
  split; [reflexivity|]. split; [reflexivity|].
  cbn [trace m1 conn withActive uniqueId]. split.
  - rewrite <- app_assoc. reflexivity.
  - rewrite submissions_app, !submissions_sendEvents. reflexivity.
Qed.

(** X16.  [SendPacketToServer] does not look at the flag either: on a
    connection whose flag is false it encodes, writes and returns exactly as
    on the same connection with the flag true.  A packet sent after [Close]
    is transmitted. *)
Theorem sending_ignores_the_flag
    (packet : NetPacket Payload) (m : Machine) (b : bool) :
  machineAfter (SendPacketToServer packet (withActive b m))
  = withActive b (machineAfter (SendPacketToServer packet m)) /\
  forall result : option error,
    (exists m', SendPacketToServer packet (withActive b m) = Returned result m')
    <-> (exists m', SendPacketToServer packet m = Returned result m').
Proof.
  rewrite !SendPacketToServer_ends. cbv zeta.
  change (sendPanics packet (withActive b m)) with (sendPanics packet m).
  change (sendResult packet (withActive b m)) with (sendResult packet m).
  change (sendEvents packet (withActive b m)) with (sendEvents packet m).
  destruct (sendPanics packet m); cbn [machineAfter];
    (split; [reflexivity|]);
    intros result; split; intros [m' S'];
    try discriminate; injection S' as <- _; eexists; reflexivity.
Qed.



(** X18.  A connection as [Create] makes it has no socket, so its first
    send panics: [Close] on a connection that was never opened clears the
    flag, submits the disconnect request and, when that request can be
    encoded, panics in the write instead of returning an error. *)
Theorem Close_before_Open_panics
    (id : string) (events : list Event) (frame : list byte) :
  encode (CreatePlayerDisconnectRequestPacket id) = inr frame ->
  Close (mkMachine (Create id) events)
  = Panicked
      (mkMachine (Create id)
         (events ++ [Submitted (CreatePlayerDisconnectRequestPacket id)])).
Proof.
  intros E. rewrite Close_ends. cbv zeta.
  unfold sendPanics, sendEvents, withActive, Create.
  cbn [conn trace udpConnection uniqueId clientListener]. rewrite E. reflexivity.
Qed.


End Properties.

(** ** The statements on the executable instance *)

#[local] Existing Instance Lab.collaborators.

Lemma Lab_tags_distinct : tags_distinct.
Proof.
  unfold tags_distinct. cbn.
  repeat constructor; cbn; intuition discriminate.
Qed.

Lemma Lab_io_Writer_contract : io_Writer_contract.
Proof.
  intros data _. reflexivity.
Qed.

Lemma submissions_logs (logs : list LogEntry) :
  submissions (map Log logs) = [].
Proof.
  induction logs; simpl; auto.
Qed.

(** C1, the statement as it stands fails.  A ping whose trailer does not
    match its body is a frame that fails to decompress ([io.Copy] answers
    "invalid checksum"), yet the turn does not drop it: the two bytes
    decompressed before the error are dispatched and a pong is submitted. *)
Lemma corrupt_ping_is_not_dropped :
  io_Copy (Lab.readerOf (snd (ReadFromUDP Lab.zeros Lab.corruptPing)))
  = (Lab.braces, Some "gzip: invalid checksum"%string) /\
  submissions
    (trace (machineAfter (iteration (ReadOk Lab.corruptPing) Lab.zeros Lab.client)))
  = [CreatePongPacket "abc"] /\
  ~ @corrupt_frames_are_dropped Lab.collaborators.
Proof.
  assert (K : io_Copy (Lab.readerOf (snd (ReadFromUDP Lab.zeros Lab.corruptPing)))
              = (Lab.braces, Some "gzip: invalid checksum"%string))
    by (vm_compute; reflexivity).
  assert (S : submissions
                (trace (machineAfter
                          (iteration (ReadOk Lab.corruptPing) Lab.zeros Lab.client)))
              = [CreatePongPacket "abc"]) by (vm_compute; reflexivity).
  split; [exact K|]. split; [exact S|].
  intros H.
  destruct (H Lab.client Lab.zeros Lab.corruptPing) as [logs I].
  - reflexivity.
  - vm_compute. lia.
  - right. exists (Lab.readerOf (snd (ReadFromUDP Lab.zeros Lab.corruptPing))).
    exists Lab.braces, "gzip: invalid checksum"%string.
    split; [vm_compute; reflexivity|exact K].
  - rewrite I in S. cbn [machineAfter trace Lab.client app] in S.
    rewrite submissions_logs in S. discriminate S.
Qed.


(** C7, the statement as it stands fails.  The IPv6 loopback address [::1]
    names no port, and [Open] resolves it as it is. *)
Lemma bare_IPv6_address_gets_no_port :
  specifiesPort "::1" = false /\
  resolutions (trace (machineAfter (Open "::1" "save" Lab.created)))
  = ["::1"%string] /\
  ~ @port_appended_when_unspecified Lab.collaborators.
Proof.
  assert (S : resolutions
                (trace (machineAfter (Open "::1" "save" Lab.created)))
              = ["::1"%string])
    by (vm_compute; reflexivity).
  split; [reflexivity|]. split; [exact S|].
  intros H.
  destruct (H "::1"%string "save"%string Lab.created)
    as [result [m' [events [O [T R]]]]].
  rewrite O in S. cbn [machineAfter] in S. rewrite T in S.
  cbn [Lab.created trace app] in S. rewrite R in S.
  vm_compute in S. discriminate S.
Qed.

(** A frame with the unknown tag 250, read into the fresh buffer by an
    active connection: it is logged and skipped, and the loop waits for the
    next datagram. *)
Lemma strange_frame_is_logged_and_skipped :
  exists logs : list LogEntry,
    logs <> [] /\
    serverListener_from [ReadOk Lab.strangeFrame] Lab.zeros Lab.client
    = Returned AwaitingDatagram
        (mkMachine (conn Lab.client) (trace Lab.client ++ map Log logs)).
Proof.
  destruct (undecodable_datagram_is_logged_and_skipped (C := Lab.collaborators)
              Lab.client Lab.zeros Lab.strangeFrame []
              (Lab.readerOf (snd (ReadFromUDP Lab.zeros Lab.strangeFrame)))
              Lab.braces (Some "gzip: invalid header"%string)
              Lab_tags_distinct eq_refl)
    as [Skipped _].
  - vm_compute. lia.
  - vm_compute. reflexivity.
  - vm_compute. reflexivity.
  - destruct Skipped as [logs [NE [_ [_ L]]]].
    + right. right. vm_compute. intuition discriminate.
    + exists logs. split; [exact NE|]. rewrite L. reflexivity.
Defined.

(** A generate-map packet is encoded, read into the fresh buffer (so zeros
    follow the frame) and decoded: the listener gets that packet. *)
Lemma map_packet_round_trip :
  exists (m' : Machine) (events : list Event),
    handleDatagram (snd (ReadFromUDP Lab.zeros (Lab.frameOf Lab.mapPacket)))
                   Lab.client
    = Returned tt m' /\
    trace m' = trace Lab.client ++ events /\
    deliveries events = [Lab.mapPacket].
Proof.
  destruct (decoding_an_encoded_packet_restores_it (C := Lab.collaborators)
              1%N GenerateMapPacket (Lab.withId "m")
              (Lab.frameOf Lab.mapPacket)
              (repeat x00 (4096 - List.length (Lab.frameOf Lab.mapPacket)))
              Lab.accept Lab.client
              Lab_tags_distinct Lab_io_Writer_contract)
    as [_ [_ [m' [events [Hd [_ [T [_ [Dl _]]]]]]]]].
  - left. left. split; reflexivity.
  - reflexivity.
  - exists (list_byte_of_string (Lab.withId "m")). split; reflexivity.
  - vm_compute. reflexivity.
  - intros data M. injection M as <-.
    exists (Lab.readerOf
              (x01 :: Lab.member (list_byte_of_string (Lab.withId "m")) ++
               repeat x00 (4096 - List.length (Lab.frameOf Lab.mapPacket)))).
    exists (Some "gzip: invalid header"%string).
    split; vm_compute; reflexivity.
  - reflexivity.
  - exists m', events. split; [|split; [assumption|]].
    + rewrite <- Hd. f_equal; vm_compute; reflexivity.
    + apply Dl. left. split; reflexivity.
Defined.

(** [Open] towards a host that refuses the first write. *)
Lemma refused_request_leaves_connection_running :
  exists m' : Machine,
    Open "refusing" "save" Lab.created
    = Returned (Some (External "write: connection refused")) m' /\
    active (conn m') = true /\
    serverListener_from [] Lab.zeros m' = Returned AwaitingDatagram m'.
Proof.
  destruct (Open_request_failure_leaves_connection_running (C := Lab.collaborators)
              "refusing" "save" Lab.created
              "refusing:6669"%string "refusing:6669"%string
              (External "write: connection refused") eq_refl eq_refl)
    as [m' [events [O [A [_ [_ [_ L]]]]]]].
  - erewrite (SendPacketToServer_runs (C := Lab.collaborators));
      [eexists; reflexivity|reflexivity].
  - exists m'. split; [exact O|]. split; [exact A|]. apply L.
Defined.

(** [Open] with an address that does not resolve. *)
Lemma unresolvable_address_leaves_connection_inactive :
  exists (m' : Machine) (events : list Event),
    Open "256.256.256.256:1" "save" Lab.created
    = Returned (Some (External "no such host")) m' /\
    active (conn m') = false /\
    trace m' = trace Lab.created ++ events /\
    goroutines events = 0.
Proof.
  destruct (Open_failure_leaves_connection_inactive (C := Lab.collaborators)
              "256.256.256.256:1" "save" Lab.created "no such host")
    as [m' [events [O [A [T [G _]]]]]].
  - left. reflexivity.
  - reflexivity.
  - exists m', events. auto.
Defined.

(** A ping read into the fresh buffer by an open connection. *)
Lemma ping_frame_is_answered :
  exists (m' : Machine) (events : list Event),
    iteration (ReadOk Lab.pingFrame) Lab.zeros Lab.client
    = Returned (snd (ReadFromUDP Lab.zeros Lab.pingFrame)) m' /\
    trace m' = trace Lab.client ++ events /\
    submissions events = [CreatePongPacket "abc"] /\
    datagrams events = [Lab.frameOf (CreatePongPacket "abc")] /\
    deliveries events = [].
Proof.
  destruct (ping_is_answered_with_one_pong (C := Lab.collaborators)
              Lab.client Lab.zeros Lab.pingFrame []
              (Lab.readerOf (snd (ReadFromUDP Lab.zeros Lab.pingFrame)))
              Lab.braces (Some "gzip: invalid header"%string)
              "localhost:6669"%string (Lab.frameOf (CreatePongPacket "abc"))
              Lab_tags_distinct eq_refl eq_refl)
    as [m' [events [I [_ [T [S [Dg [Dl _]]]]]]]].
  - vm_compute. lia.
  - vm_compute. reflexivity.
  - vm_compute. reflexivity.
  - vm_compute. reflexivity.
  - discriminate.
  - vm_compute. reflexivity.
  - exists m', events. auto.
Defined.

(** A generate-map frame read by a connection without a listener. *)
Lemma map_frame_without_listener_panics :
  exists m' : Machine,
    serverListener [ReadOk (Lab.frameOf Lab.mapPacket)] Lab.deaf = Panicked m' /\
    deliveries (trace m') = [].
Proof.
  destruct (forwarding_without_listener_panics (C := Lab.collaborators)
              Lab.deaf Lab.zeros (Lab.frameOf Lab.mapPacket) []
              (Lab.readerOf (snd (ReadFromUDP Lab.zeros (Lab.frameOf Lab.mapPacket))))
              (list_byte_of_string (Lab.withId "m"))
              (Some "gzip: invalid header"%string)
              GenerateMapPacket (Lab.withId "m")
              Lab_tags_distinct eq_refl eq_refl)
    as [_ [m' [_ [_ [Dl L]]]]].
  - vm_compute. lia.
  - left. split; vm_compute; reflexivity.
  - vm_compute. reflexivity.
  - vm_compute. reflexivity.
  - vm_compute. discriminate.
  - vm_compute. reflexivity.
  - exists m'. split; [exact L|exact Dl].
Defined.

(** A ping read into the fresh buffer: the reader is given 4095 bytes. *)
Lemma ping_frame_is_decoded_with_the_rest_of_the_buffer :
  List.length (tl Lab.pingFrame ++ skipn (List.length Lab.pingFrame) Lab.zeros)
  = 4095 /\
  nth 4095 (snd (ReadFromUDP Lab.zeros Lab.pingFrame)) x00 = nth 4095 Lab.zeros x00.
Proof.
  destruct (decoder_is_given_the_whole_buffer (C := Lab.collaborators) Lab.client Lab.zeros Lab.pingFrame)
    as [R [_ [_ [L Stale]]]].
  - vm_compute. reflexivity.
  - vm_compute. lia.
  - split; [exact L|]. rewrite R. apply Stale. vm_compute. lia.
Defined.

(** What the buffer still holds can spoil a good frame.  Read alone, the
    generate-map frame is delivered.  Read after a longer datagram that
    carries a second gzip member where the frame will end, the reader runs on
    into that member, the body no longer unmarshals, and nothing is
    delivered. *)
Lemma stale_member_spoils_the_next_frame :
  deliveries
    (trace (machineAfter
              (serverListener [ReadOk (Lab.frameOf Lab.mapPacket)] Lab.client)))
  = [Lab.mapPacket] /\
  deliveries
    (trace (machineAfter
              (serverListener
                 [ReadOk Lab.longPing; ReadOk (Lab.frameOf Lab.mapPacket)]
                 Lab.client)))
  = [].
Proof.
  split; vm_compute; reflexivity.
Qed.

(** ** The further properties on the executable instance *)

(** Two read errors around an empty datagram. *)
Lemma idle_reads_run :
  serverListener [ReadErr "timeout"; ReadOk []; ReadErr "reset"] Lab.client
  = Returned AwaitingDatagram
      (mkMachine (conn Lab.client)
         [Log (LogSocketError "timeout"); Log (LogSocketError "reset")]).
Proof.
  exact (idle_reads_are_only_logged (C := Lab.collaborators)
           [ReadErr "timeout"; ReadOk []; ReadErr "reset"] Lab.zeros Lab.client
           eq_refl eq_refl).
Defined.

(** A datagram that is not gzip, followed by a good ping that is never
    answered. *)
Lemma garbage_stops_the_loop :
  serverListener [ReadOk Lab.garbage; ReadOk Lab.pingFrame] Lab.client
  = Panicked Lab.client.
Proof.
  apply (rejected_header_stops_the_loop (C := Lab.collaborators)
           Lab.client Lab.zeros Lab.garbage "gzip: invalid header"
           [ReadOk Lab.pingFrame]).
  - reflexivity.
  - vm_compute. lia.
  - vm_compute. reflexivity.
Defined.

(** [Open] towards a host that answers. *)
Lemma Open_to_localhost :
  exists (m' : Machine) (events : list Event),
    Open "localhost" "save" Lab.created = Returned None m' /\
    active (conn m') = true /\
    udpConnection (conn m') = Some "localhost:6669"%string /\
    trace m' = trace Lab.created ++ events /\
    goroutines events = 1 /\
    submissions events = [CreatePlayerConnectionRequestPacket "abc" "save"].
Proof.
  destruct (Open_success (C := Lab.collaborators)
              "localhost" "save" Lab.created
              "localhost:6669"%string "localhost:6669"%string eq_refl eq_refl)
    as [m' [events [frame [O [Cm [T [G [S _]]]]]]]].
  - erewrite (SendPacketToServer_runs (C := Lab.collaborators));
      [eexists; reflexivity|reflexivity].
  - exists m', events. rewrite Cm. auto 6.
Defined.

(** [Open] on an open connection towards a host that cannot be reached:
    the socket is gone and the next pong panics. *)
Lemma unreachable_host_drops_the_socket :
  exists m' : Machine,
    Open "unroutable" "save" Lab.client
    = Returned (Some (External "connect: network is unreachable")) m' /\
    udpConnection (conn m') = None /\
    active (conn m') = true /\
    SendPacketToServer (CreatePongPacket "abc") m'
    = Panicked (mkMachine (conn m') (trace m' ++ [Submitted (CreatePongPacket "abc")])).
Proof.
  destruct (failed_dial_drops_the_socket (C := Lab.collaborators)
              "unroutable" "save" Lab.client "unroutable:6669"%string
              "connect: network is unreachable"
              (CreatePongPacket "abc") (Lab.frameOf (CreatePongPacket "abc"))
              eq_refl eq_refl)
    as [m' [O [U [A S]]]].
  - vm_compute. reflexivity.
  - exists m'. auto.
Defined.

(** A pong sent on an open connection. *)
Lemma pong_is_written_once :
  exists (c : UDPConn) (data : list byte),
    udpConnection (conn Lab.client) = Some c /\
    json_Marshal (PacketData (CreatePongPacket "abc")) = inr data /\
    datagrams
      (trace (machineAfter (SendPacketToServer (CreatePongPacket "abc") Lab.client)))
    = [byte_of_NetPacketType 7 :: gzip_Writer_output data].
Proof.
  destruct (send_success_means_one_write (C := Lab.collaborators)
              (CreatePongPacket "abc") Lab.client
              (machineAfter (SendPacketToServer (CreatePongPacket "abc") Lab.client)))
    as [c [data [U [M [_ T]]]]].
  - erewrite (SendPacketToServer_runs (C := Lab.collaborators));
      [reflexivity|reflexivity].
  - exists c, data. split; [exact U|]. split; [exact M|].
    rewrite T. reflexivity.
Defined.

(** A payload that cannot be marshalled, sent on a connection that has no
    socket: the error comes back, nothing panics. *)
Lemma unmarshallable_payload_is_refused_before_the_socket :
  @SendPacketToServer Lab.picky (mkNetPacket 7 EmptyString) Lab.pickyCreated
  = Returned (Some (External "unexpected end of JSON input"))
      (@mkMachine Lab.picky (conn Lab.pickyCreated)
         [@Submitted Lab.picky (mkNetPacket 7 EmptyString)]).
Proof.
  apply (encoding_error_is_returned_before_the_socket (C := Lab.picky)
           (mkNetPacket 7 EmptyString) Lab.pickyCreated
           "unexpected end of JSON input").
  left. reflexivity.
Defined.

(** A generate-map frame read by a connection whose listener refuses. *)
Lemma refusal_of_the_listener_is_printed :
  exists (m' : Machine) (events : list Event),
    serverListener [ReadOk (Lab.frameOf Lab.mapPacket)] Lab.grumpy
    = Returned AwaitingDatagram m' /\
    trace m' = trace Lab.grumpy ++ events /\
    deliveries events = [Lab.mapPacket] /\
    In (Log (LogProcessingError 1 (External "busy"))) events.
Proof.
  destruct (listener_error_is_logged_and_swallowed (C := Lab.collaborators)
              Lab.grumpy Lab.zeros (Lab.frameOf Lab.mapPacket) []
              (Lab.readerOf (snd (ReadFromUDP Lab.zeros (Lab.frameOf Lab.mapPacket))))
              (list_byte_of_string (Lab.withId "m"))
              (Some "gzip: invalid header"%string)
              GenerateMapPacket (Lab.withId "m") Lab.refuse "busy"
              Lab_tags_distinct eq_refl eq_refl)
    as [m' [events [_ [Cm [T [Dl [Lg [_ [_ L]]]]]]]]].
  - vm_compute. lia.
  - left. split; vm_compute; reflexivity.
  - vm_compute. reflexivity.
  - vm_compute. reflexivity.
  - vm_compute. discriminate.
  - vm_compute. reflexivity.
  - reflexivity.
  - exists m', events. split.
    { unfold serverListener. fold Lab.zeros. rewrite L.
      cbn [serverListener_from]. rewrite Cm. reflexivity. }
    split; [exact T|]. split.
    + rewrite Dl. f_equal; vm_compute; reflexivity.
    + assert (E : NetPacketType_of_byte
                    (hd x00 (snd (ReadFromUDP Lab.zeros (Lab.frameOf Lab.mapPacket))))
                  = 1%N) by (vm_compute; reflexivity).
      rewrite E in Lg. exact Lg.
Defined.

(** A ping read by a connection whose server refuses every write. *)
Lemma refused_pong_is_printed :
  exists (m' : Machine) (events : list Event),
    serverListener [ReadOk Lab.pingFrame] Lab.unheard
    = Returned AwaitingDatagram m' /\
    trace m' = trace Lab.unheard ++ events /\
    In (Log (LogPingError (External "write: connection refused"))) events /\
    datagrams events = [Lab.frameOf (CreatePongPacket "abc")].
Proof.
  destruct (pong_failure_is_logged_and_swallowed (C := Lab.collaborators)
              Lab.unheard Lab.zeros Lab.pingFrame []
              (Lab.readerOf (snd (ReadFromUDP Lab.zeros Lab.pingFrame)))
              Lab.braces (Some "gzip: invalid header"%string)
              "refusing:6669"%string
              Lab_tags_distinct eq_refl eq_refl)
    as [m' [events [_ [Cm [T [L [_ W]]]]]]].
  - vm_compute. lia.
  - vm_compute. reflexivity.
  - vm_compute. reflexivity.
  - vm_compute. reflexivity.
  - discriminate.
  - destruct (W (Lab.frameOf (CreatePongPacket "abc")) "write: connection refused"%string)
      as [Lg Dg].
    + vm_compute. reflexivity.
    + intros now. reflexivity.
    + exists m', events. split; [|auto].
      unfold serverListener. fold Lab.zeros. rewrite L.
      cbn [serverListener_from]. rewrite Cm. reflexivity.
Defined.

(** A listener installed on a connection that had none. *)
Lemma listener_installed_on_a_deaf_connection :
  exists (m1 m' : Machine) (events : list Event),
    SetClientListener (Some Lab.accept) Lab.deaf = Returned tt m1 /\
    iteration (ReadOk (Lab.frameOf Lab.mapPacket)) Lab.zeros m1
    = Returned (snd (ReadFromUDP Lab.zeros (Lab.frameOf Lab.mapPacket))) m' /\
    trace m' = trace Lab.deaf ++ events /\
    deliveries events = [Lab.mapPacket].
Proof.
  destruct (installed_listener_receives_forwarded_packets (C := Lab.collaborators)
              Lab.deaf Lab.zeros (Lab.frameOf Lab.mapPacket)
              (Lab.readerOf (snd (ReadFromUDP Lab.zeros (Lab.frameOf Lab.mapPacket))))
              (list_byte_of_string (Lab.withId "m"))
              (Some "gzip: invalid header"%string)
              GenerateMapPacket (Lab.withId "m") Lab.accept
              Lab_tags_distinct)
    as [m1 [S [_ [_ [m' [events [I [T [Dl _]]]]]]]]].
  - vm_compute. lia.
  - left. split; vm_compute; reflexivity.
  - vm_compute. reflexivity.
  - vm_compute. reflexivity.
  - vm_compute. discriminate.
  - vm_compute. reflexivity.
  - exists m1, m', events. split; [exact S|]. split; [exact I|].
    split; [exact T|]. rewrite Dl. f_equal; vm_compute; reflexivity.
Defined.

(** A disconnection notice read by a connection without a listener. *)
Lemma notice_needs_no_listener :
  exists (m' : Machine) (events : list Event),
    serverListener [ReadOk Lab.noticeFrame] Lab.deaf
    = Returned AwaitingDatagram m' /\
    trace m' = trace Lab.deaf ++ events /\
    deliveries events = [].
Proof.
  destruct (other_tags_never_reach_the_listener (C := Lab.collaborators)
              Lab.deaf Lab.zeros Lab.noticeFrame []
              (Lab.readerOf (snd (ReadFromUDP Lab.zeros Lab.noticeFrame)))
              (list_byte_of_string (Lab.withId "xyz"))
              (Some "gzip: invalid header"%string)
              "localhost:6669"%string eq_refl eq_refl)
    as [m' [events [_ [Cm [T [Dl L]]]]]].
  - vm_compute. lia.
  - vm_compute. intuition discriminate.
  - vm_compute. reflexivity.
  - vm_compute. reflexivity.
  - exists m', events. split; [|split; [exact T|exact Dl]].
    unfold serverListener. fold Lab.zeros. rewrite L.
    cbn [serverListener_from]. rewrite Cm. reflexivity.
Defined.

(** Two calls of [Close] on an open connection. *)
Lemma two_closes_two_disconnects :
  exists (e1 e2 : option error) (m1 m2 : Machine) (events : list Event),
    Close Lab.client = Returned e1 m1 /\
    Close m1 = Returned e2 m2 /\
    active (conn m2) = false /\
    trace m2 = trace Lab.client ++ events /\
    submissions events
    = [CreatePlayerDisconnectRequestPacket "abc";
       CreatePlayerDisconnectRequestPacket "abc"].
Proof.
  destruct (closing_twice_submits_two_disconnects (C := Lab.collaborators)
              Lab.client "localhost:6669"%string eq_refl)
    as [e1 [e2 [m1 [m2 [events [C1 [C2 [_ [A [T S]]]]]]]]]].
  exists e1, e2, m1, m2, events. auto 6.
Defined.

(** [Close] on a connection that was only created. *)
Lemma Close_on_a_created_connection_panics :
  Close Lab.created
  = Panicked
      (mkMachine (Create "abc") [Submitted (CreatePlayerDisconnectRequestPacket "abc")]).
Proof.
  apply (Close_before_Open_panics (C := Lab.collaborators) "abc" []
           (Lab.frameOf (CreatePlayerDisconnectRequestPacket "abc"))).
  vm_compute. reflexivity.
Defined.
